(** * flatpak-cargo-generator: a shallow embedding of the source resolver

    The program under study is [cargo/flatpak-cargo-generator.py]: it turns
    the entries of a [Cargo.lock] into the list of flatpak source
    descriptors and the cargo configuration that redirects cargo to the
    vendored copies.

    Python [str] values are modelled as lists of characters ([list ascii],
    one [ascii] per code point); the development speaks about ASCII text,
    which is what URLs, crate names, versions and hex digests are made of.
    The functions of [urllib.parse] and [json] the script calls are
    transcribed from CPython 3.11's [Lib/urllib/parse.py] and
    [Lib/json/encoder.py].  What the script asks of the network, of [git]
    and of the [toml] package enters as parameters of the functions that
    use them; a computation returns the events it caused together with its
    value or the exception that ended it. *)

From Stdlib Require Import List Ascii Bool Arith Lia.
Import ListNotations.

(** ** Python strings *)

Definition str := list ascii.

(** String literals denote lists of characters: ["ab"] is
    ["a"%char; "b"%char]. *)
Declare Scope str_scope.
Delimit Scope str_scope with str.
Bind Scope str_scope with str.

Inductive str_lit : Set :=
| LNil
| LCons (a : ascii) (s : str_lit).

Fixpoint lit_of_bytes (l : list Byte.byte) : str_lit :=
  match l with
  | [] => LNil
  | b :: l => LCons (ascii_of_byte b) (lit_of_bytes l)
  end.

Fixpoint bytes_of_lit (l : str_lit) : list Byte.byte :=
  match l with
  | LNil => []
  | LCons a l => byte_of_ascii a :: bytes_of_lit l
  end.

#[warning="-via-type-remapping,-via-type-mismatch"]
String Notation str lit_of_bytes bytes_of_lit
  (via str_lit mapping [[nil] => LNil, [cons] => LCons]) : str_scope.

Open Scope str_scope.
Open Scope list_scope.

Definition str_eq_dec : forall a b : str, {a = b} + {a <> b} :=
  list_eq_dec ascii_dec.

Module Py.

(** [c in s] for a one-character [c]. *)
Definition mem (c : ascii) (s : str) : bool :=
  existsb (Ascii.eqb c) s.

(** [s.startswith(p)] *)
Fixpoint startswith (p s : str) : bool :=
  match p, s with
  | [], _ => true
  | _ :: _, [] => false
  | a :: p', b :: s' => Ascii.eqb a b && startswith p' s'
  end.

(** [s.endswith(p)] *)
Definition endswith (p s : str) : bool :=
  startswith (rev p) (rev s).

(** [s.replace(old, new)] for a non-empty [old]: occurrences are found
    from the left and do not overlap.  [skip] counts the characters of a
    match that are still to be dropped. *)
Fixpoint replace_from (old new : str) (skip : nat) (s : str) : str :=
  match s with
  | [] => []
  | c :: s' =>
      match skip with
      | S k => replace_from old new k s'
      | O =>
          if startswith old s
          then new ++ replace_from old new (length old - 1) s'
          else c :: replace_from old new 0 s'
      end
  end.

Definition replace (old new s : str) : str :=
  replace_from old new 0 s.

Fixpoint dropwhile (p : ascii -> bool) (s : str) : str :=
  match s with
  | [] => []
  | c :: s' => if p c then dropwhile p s' else s
  end.

(** [s.lstrip(chars)] and [s.rstrip(chars)] *)
Definition lstrip (chars : str) (s : str) : str :=
  dropwhile (fun c => mem c chars) s.

Definition rstrip (chars : str) (s : str) : str :=
  rev (dropwhile (fun c => mem c chars) (rev s)).

Definition is_upper (c : ascii) : bool :=
  (65 <=? nat_of_ascii c) && (nat_of_ascii c <=? 90).

Definition is_lower (c : ascii) : bool :=
  (97 <=? nat_of_ascii c) && (nat_of_ascii c <=? 122).

Definition is_digit (c : ascii) : bool :=
  (48 <=? nat_of_ascii c) && (nat_of_ascii c <=? 57).

(** [c.isascii() and c.isalpha()] *)
Definition is_ascii_alpha (c : ascii) : bool :=
  is_upper c || is_lower c.

Definition lower_char (c : ascii) : ascii :=
  if is_upper c then ascii_of_nat (nat_of_ascii c + 32) else c.

(** [s.lower()] *)
Definition lower (s : str) : str := map lower_char s.

(** [s.find(c)] for a one-character [c]; [None] stands for [-1]. *)
Fixpoint find (c : ascii) (s : str) : option nat :=
  match s with
  | [] => None
  | a :: s' => if Ascii.eqb a c then Some 0 else option_map S (find c s')
  end.

(** [s.find(c, start)] *)
Definition find_from (c : ascii) (start : nat) (s : str) : option nat :=
  option_map (Nat.add start) (find c (skipn start s)).

(** [s.rfind(c)] *)
Definition rfind (c : ascii) (s : str) : option nat :=
  option_map (fun i => length s - 1 - i) (find c (rev s)).

(** [s[i:j]] for [0 <= i], [0 <= j] *)
Definition slice (i j : nat) (s : str) : str :=
  firstn (j - i) (skipn i s).

(** [s.split(c)] for a one-character separator: never empty. *)
Fixpoint split (c : ascii) (s : str) : list str :=
  match s with
  | [] => [[]]
  | a :: s' =>
      if Ascii.eqb a c then [] :: split c s'
      else match split c s' with
           | [] => [[a]]
           | w :: ws => (a :: w) :: ws
           end
  end.

(** [s.split(c, 1)]: one piece when [c] is absent, else two. *)
Definition split1 (c : ascii) (s : str) : list str :=
  match find c s with
  | None => [s]
  | Some i => [firstn i s; skipn (S i) s]
  end.

(** [s.partition(c)]: the part before the first [c], whether [c] was
    found, and the part after it. *)
Definition partition (c : ascii) (s : str) : str * bool * str :=
  match find c s with
  | None => (s, false, [])
  | Some i => (firstn i s, true, skipn (S i) s)
  end.

(** [s.rpartition(c)] *)
Definition rpartition (c : ascii) (s : str) : str * bool * str :=
  match rfind c s with
  | None => ([], false, s)
  | Some i => (firstn i s, true, skipn (S i) s)
  end.

(** [sep.join(parts)] *)
Fixpoint join (sep : str) (parts : list str) : str :=
  match parts with
  | [] => []
  | [p] => p
  | p :: ps => p ++ sep ++ join sep ps
  end.

Definition hex_digit (upper : bool) (n : nat) : ascii :=
  if n <? 10 then ascii_of_nat (48 + n)
  else ascii_of_nat ((if upper then 55 else 87) + n).

End Py.

(** ** Exceptions and results *)

Inductive exn : Type :=
| AssertionError (msg : str)
| ValueError (msg : str)
| KeyError (key : str)
| AttributeError (msg : str)
| CalledProcessError
| ClientError.

Inductive result (A : Type) : Type :=
| Ok (a : A)
| Raise (e : exn).

Arguments Ok {A} a.
Arguments Raise {A} e.

(** ** [urllib.parse] *)

Module UrlParse.

(** The six-field named tuple [ParseResult].  [urlparse] fills every
    field with a string; [canonical_url] builds results whose last three
    fields are [None]. *)
Record ParseResult : Type := mkParseResult {
  scheme : str;
  netloc : str;
  path : str;
  params : option str;
  query : option str;
  fragment : option str
}.

Definition uses_netloc : list str :=
  [""; "ftp"; "http"; "gopher"; "nntp"; "telnet";
   "imap"; "wais"; "file"; "mms"; "https"; "shttp";
   "snews"; "prospero"; "rtsp"; "rtspu"; "rsync";
   "svn"; "svn+ssh"; "sftp"; "nfs"; "git"; "git+ssh";
   "ws"; "wss"].

Definition uses_params : list str :=
  [""; "ftp"; "hdl"; "prospero"; "http"; "imap";
   "https"; "shttp"; "rtsp"; "rtspu"; "sip"; "sips";
   "mms"; "sftp"; "tel"].

Definition in_list (s : str) (l : list str) : bool :=
  existsb (fun x => if str_eq_dec s x then true else false) l.

(** [c in scheme_chars] *)
Definition scheme_char (c : ascii) : bool :=
  Py.is_lower c || Py.is_upper c || Py.is_digit c
  || Py.mem c "+-.".

(** [_WHATWG_C0_CONTROL_OR_SPACE]: the code points 0 to 32. *)
Definition c0_control_or_space (c : ascii) : bool :=
  nat_of_ascii c <=? 32.

(** [_UNSAFE_URL_BYTES_TO_REMOVE]: tab, carriage return, line feed. *)
Definition unsafe_url_bytes : list ascii :=
  [ascii_of_nat 9; ascii_of_nat 13; ascii_of_nat 10].

Definition remove_unsafe (url : str) : str :=
  fold_left (fun u b => Py.replace [b] [] u) unsafe_url_bytes url.

(** [_splitnetloc(url, start)] *)
Definition _splitnetloc (url : str) (start : nat) : str * str :=
  let delim :=
    fold_left
      (fun delim c =>
         match Py.find_from c start url with
         | Some wdelim => Nat.min delim wdelim
         | None => delim
         end)
      ("/?#" : str) (length url) in
  (Py.slice start delim url, skipn delim url).

(** The bracket test of [urlsplit]: an authority with only one of the
    two brackets of an IPv6 literal is refused.  (Later point releases
    also validate the text between the brackets through the [ipaddress]
    module; that validation is not part of this model, so the model
    accepts every URL CPython accepts.) *)
Definition unbalanced_brackets (netloc : str) : bool :=
  (Py.mem "["%char netloc && negb (Py.mem "]"%char netloc))
  || (Py.mem "]"%char netloc && negb (Py.mem "["%char netloc)).

(** The scheme test at the head of [urlsplit]: the text before the
    first colon is a scheme when the colon is not the first character,
    the URL starts with an ASCII letter and every character before the
    colon is in [scheme_chars]. *)
Definition split_scheme (url : str) : str * str :=
  match Py.find ":"%char url with
  | Some (S i') =>
      let i := S i' in
      if match url with c :: _ => Py.is_ascii_alpha c | [] => false end
         && forallb scheme_char (firstn i url)
      then (Py.lower (firstn i url), skipn (S i) url)
      else ([], url)
  | _ => ([], url)
  end.

(** [if c in url: url, rest = url.split(c, 1)], with [rest] defaulting
    to the empty string. *)
Definition split_at (c : ascii) (url : str) : str * str :=
  let '(before, _, after) := Py.partition c url in (before, after).

(** [urlsplit(url)]: scheme, netloc, path, query, fragment.  The closing
    [_checknetloc] looks at netlocs with non-ASCII characters only and is
    left out. *)
Definition urlsplit (url : str) : result (str * str * str * str * str) :=
  let url := Py.dropwhile c0_control_or_space url in
  let url := remove_unsafe url in
  let '(scheme, url) := split_scheme url in
  let '(netloc, url) :=
    if Py.startswith "//" url then _splitnetloc url 2 else ([], url) in
  if unbalanced_brackets netloc then Raise (ValueError "Invalid IPv6 URL")
  else
    let '(url, fragment) := split_at "#"%char url in
    let '(url, query) := split_at "?"%char url in
    Ok (scheme, netloc, url, query, fragment).

(** [_splitparams(url)], called when [';' in url]. *)
Definition _splitparams (url : str) : str * str :=
  if Py.mem "/"%char url then
    match Py.rfind "/"%char url with
    | Some r =>
        match Py.find_from ";"%char r url with
        | Some i => (firstn i url, skipn (S i) url)
        | None => (url, [])
        end
    | None => (url, [])
    end
  else
    match Py.find ";"%char url with
    | Some i => (firstn i url, skipn (S i) url)
    | None => (url, [])
    end.

(** [urlparse(url)] *)
Definition urlparse (url : str) : result ParseResult :=
  match urlsplit url with
  | Raise e => Raise e
  | Ok (scheme, netloc, url, query, fragment) =>
      let '(url, params) :=
        if in_list scheme uses_params && Py.mem ";"%char url
        then _splitparams url else (url, []) in
      Ok (mkParseResult scheme netloc url
            (Some params) (Some query) (Some fragment))
  end.

(** A field that is [None] or empty is falsy. *)
Definition truthy (o : option str) : option str :=
  match o with
  | Some (_ :: _) => o
  | _ => None
  end.

(** [urlunsplit((scheme, netloc, url, query, fragment))] *)
Definition urlunsplit (scheme netloc url : str) (query fragment : option str)
  : str :=
  let url :=
    if negb (length netloc =? 0)
       || (negb (length scheme =? 0) && in_list scheme uses_netloc
           && negb (Py.startswith "//" url))
    then
      let url :=
        match url with
        | c :: _ => if Ascii.eqb c "/" then url else "/" ++ url
        | [] => url
        end in
      "//" ++ netloc ++ url
    else url in
  let url := if negb (length scheme =? 0) then scheme ++ ":" ++ url else url in
  let url := match truthy query with Some q => url ++ "?" ++ q | None => url end in
  match truthy fragment with Some f => url ++ "#" ++ f | None => url end.

(** [urlunparse(components)], which is what [ParseResult.geturl()]
    returns. *)
Definition geturl (u : ParseResult) : str :=
  let url :=
    match truthy (params u) with
    | Some p => path u ++ ";" ++ p
    | None => path u
    end in
  urlunsplit (scheme u) (netloc u) url (query u) (fragment u).

(** The [_hostinfo] property: host name and port text of the netloc. *)
Definition _hostinfo (u : ParseResult) : str * option str :=
  let '(_, _, hostinfo) := Py.rpartition "@"%char (netloc u) in
  let '(_, have_open_br, bracketed) := Py.partition "["%char hostinfo in
  let '(hostname, port) :=
    if have_open_br then
      let '(hostname, _, port) := Py.partition "]"%char bracketed in
      let '(_, _, port) := Py.partition ":"%char port in
      (hostname, port)
    else
      let '(hostname, _, port) := Py.partition ":"%char hostinfo in
      (hostname, port) in
  (hostname, match port with [] => None | _ => Some port end).

(** The [hostname] property: [None] when the netloc names no host, else
    the host name in lower case (an IPv6 zone after [%] keeps its
    case). *)
Definition hostname (u : ParseResult) : option str :=
  match fst (_hostinfo u) with
  | [] => None
  | h =>
      let '(h, percent, zone) := Py.partition "%"%char h in
      Some (Py.lower h ++ (if percent then "%" else "") ++ zone)
  end.

(** [quote(string)] with the default [safe='/']: the text is encoded in
    UTF-8 and every byte outside letters, digits, [_.-~] and [/] becomes
    [%XX] with upper-case hexadecimal digits. *)
Definition always_safe (c : ascii) : bool :=
  Py.is_upper c || Py.is_lower c || Py.is_digit c || Py.mem c "_.-~".

Definition utf8 (c : ascii) : list nat :=
  let n := nat_of_ascii c in
  if n <? 128 then [n] else [192 + n / 64; 128 + n mod 64].

Definition quote_byte (b : nat) : str :=
  let c := ascii_of_nat b in
  if (b <? 128) && (always_safe c || Ascii.eqb c "/") then [c]
  else ["%"%char; Py.hex_digit true (b / 16); Py.hex_digit true (b mod 16)].

Definition quote (s : str) : str :=
  flat_map (fun c => flat_map quote_byte (utf8 c)) s.

(** [_hexdig]: the value of a hexadecimal digit of either case. *)
Definition hex_value (c : ascii) : option nat :=
  let n := nat_of_ascii c in
  if Py.is_digit c then Some (n - 48)
  else if (65 <=? n) && (n <=? 70) then Some (n - 55)
  else if (97 <=? n) && (n <=? 102) then Some (n - 87)
  else None.

(** [unquote(string)]: every [%XX] with two hexadecimal digits becomes the
    byte it names; any other [%] stays.  (Bytes above 127 would be decoded
    as UTF-8 by CPython; the model keeps the byte, such escapes being
    outside ASCII text.) *)
Fixpoint unquote (s : str) : str :=
  match s with
  | [] => []
  | c :: s' =>
      if Ascii.eqb c "%" then
        match s' with
        | h1 :: ((h2 :: _) as s'') =>
            match hex_value h1, hex_value h2 with
            | Some a, Some b =>
                ascii_of_nat (16 * a + b) :: tl (unquote s'')
            | _, _ => c :: unquote s'
            end
        | _ => c :: unquote s'
        end
      else c :: unquote s'
  end.

(** [parse_qsl(qs)] with the default arguments: fields are separated by
    [&]; a field without [=] or with an empty value is dropped. *)
Definition parse_field (name_value : str) : option (str * str) :=
  match name_value with
  | [] => None
  | _ =>
      match Py.split1 "=" name_value with
      | [n; v] =>
          match v with
          | [] => None
          | _ => Some (unquote (Py.replace "+" " " n),
                       unquote (Py.replace "+" " " v))
          end
      | _ => None
      end
  end.

Definition parse_qsl (qs : str) : list (str * str) :=
  match qs with
  | [] => []
  | _ =>
      flat_map (fun nv => match parse_field nv with
                          | Some f => [f]
                          | None => []
                          end)
        (Py.split "&" qs)
  end.

End UrlParse.

Import UrlParse.

(** ** Values, dictionaries, JSON *)

(** The values the script stores in descriptors and in the cargo
    configuration: [None], strings, lists and dictionaries with string keys.
    A dictionary keeps its keys in insertion order, as a Python [dict]
    does. *)
#[warning="-register-all"]
Inductive value : Type :=
| VNone
| VStr (s : str)
| VList (l : list value)
| VDict (d : list (str * value)).

Section Dict.

Variable V : Type.

Definition dict := list (str * V).

(** [d.get(k)] *)
Fixpoint dict_get (k : str) (d : dict) : option V :=
  match d with
  | [] => None
  | (k', v) :: d' => if str_eq_dec k k' then Some v else dict_get k d'
  end.

(** [d[k] = v]: an existing key keeps its place, a new one goes last. *)
Fixpoint dict_set (k : str) (v : V) (d : dict) : dict :=
  match d with
  | [] => [(k, v)]
  | (k', v') :: d' =>
      if str_eq_dec k k' then (k', v) :: d'
      else (k', v') :: dict_set k v d'
  end.

(** [d.update(e)] *)
Definition dict_update (d e : dict) : dict :=
  fold_left (fun acc kv => dict_set (fst kv) (snd kv) acc) e d.

End Dict.

Arguments dict_get {V} k d.
Arguments dict_set {V} k v d.
Arguments dict_update {V} d e.

Module Json.

(** [encode_basestring_ascii]: quotes, backslashes and everything outside
    the printable ASCII range are escaped. *)
Definition escape_char (c : ascii) : str :=
  let n := nat_of_ascii c in
  if Ascii.eqb c "\" then "\\"
  else if n =? 34 then [ascii_of_nat 92; ascii_of_nat 34]
  else if n =? 8 then "\b"
  else if n =? 12 then "\f"
  else if n =? 10 then "\n"
  else if n =? 13 then "\r"
  else if n =? 9 then "\t"
  else if (n <? 32) || (126 <? n) then
    "\u00" ++ [Py.hex_digit false (n / 16); Py.hex_digit false (n mod 16)]
  else [c].

Definition encode_basestring_ascii (s : str) : str :=
  [ascii_of_nat 34] ++ flat_map escape_char s ++ [ascii_of_nat 34].

(** [json.dumps(v)] with the default separators. *)
Fixpoint dumps (v : value) : str :=
  match v with
  | VNone => "null"
  | VStr s => encode_basestring_ascii s
  | VList l => "[" ++ Py.join ", " (map dumps l) ++ "]"
  | VDict d =>
      "{" ++ Py.join ", "
               (map (fun kv => match kv with
                               | (k, x) =>
                                   encode_basestring_ascii k ++ ": " ++ dumps x
                               end) d)
          ++ "}"
  end.

End Json.

(** ** Effects

    A run of the script talks to the outside world in three ways that the
    claims mention: it logs warnings, it downloads a URL to hash it, and it
    runs [git] to materialise a repository.  A computation returns the
    events it caused, in order, and either a value or the exception that
    ended it.  (Messages logged at the debug and info levels are not
    recorded.) *)

Inductive event : Type :=
| Warning (msg : str)
| HttpGet (url : str)
| GitCheckout (git_url commit : str).

Definition M (A : Type) : Type := (list event * result A)%type.

Definition ret {A} (a : A) : M A := ([], Ok a).

Definition raise {A} (e : exn) : M A := ([], Raise e).

Definition emit (e : event) : M unit := ([e], Ok tt).

Definition bind {A B} (m : M A) (k : A -> M B) : M B :=
  match m with
  | (t, Raise e) => (t, Raise e)
  | (t, Ok a) => let '(t', r) := k a in (t ++ t', r)
  end.

Definition lift {A} (r : result A) : M A := ([], r).

(** [assert cond, msg] *)
Definition assert_ (cond : bool) (msg : str) : M unit :=
  if cond then ret tt else raise (AssertionError msg).

Declare Scope M_scope.
Delimit Scope M_scope with M.
Notation "x <- m ;; k" := (bind m (fun x => k))
  (at level 61, m at next level, right associativity) : M_scope.
Notation "m ;;; k" := (bind m (fun _ => k))
  (at level 61, right associativity) : M_scope.
Open Scope M_scope.

(** [await asyncio.gather] over the coroutines: the results come back in the order of
    the coroutines, and an exception of one of them ends the whole call.
    The coroutines are run one after the other here; the interleaving of an
    actual run changes the order of the events only. *)
Fixpoint gather {A} (coros : list (M A)) : M (list A) :=
  match coros with
  | [] => ret []
  | c :: cs => a <- c ;; l <- gather cs ;; ret (a :: l)
  end.

(** ** The script *)

Definition CRATES_IO : str := "https://static.crates.io/crates".
Definition CARGO_HOME : str := "cargo".
Definition CARGO_CRATES : str := CARGO_HOME ++ "/vendor".
Definition VENDORED_SOURCES : str := "vendored-sources".

(** [canonical_url(url)] *)
Definition canonical_url (url : str) : result ParseResult :=
  let url := Py.replace "git+https://" "https://" url in
  match urlparse url with
  | Raise e => Raise e
  | Ok u =>
      let u := mkParseResult (scheme u) (netloc u) (path u) None None None in
      let u := mkParseResult (scheme u) (netloc u) (Py.rstrip "/" (path u))
                 (params u) (query u) (fragment u) in
      let u :=
        if str_eq_dec (netloc u) "github.com" then
          let u := mkParseResult "https" (netloc u) (path u)
                     (params u) (query u) (fragment u) in
          mkParseResult (scheme u) (netloc u) (Py.lower (path u))
            (params u) (query u) (fragment u)
        else u in
      let u :=
        if Py.endswith ".git" (path u) then
          mkParseResult (scheme u) (netloc u)
            (firstn (length (path u) - length (".git" : str)) (path u))
            (params u) (query u) (fragment u)
        else u in
      Ok u
  end.

(** [get_git_tarball(repo_url, commit)] *)
Definition get_git_tarball (repo_url commit : str) : result str :=
  match canonical_url repo_url with
  | Raise e => Raise e
  | Ok url =>
      let path := tl (Py.split "/" (path url)) in
      match path with
      | [owner; p1] =>
          let repo :=
            if Py.endswith ".git" p1 then Py.replace ".git" "" p1 else p1 in
          match hostname url with
          | None =>
              Raise (AttributeError "'NoneType' object has no attribute 'split'")
          | Some host =>
              if str_eq_dec host "github.com" then
                Ok ("https://codeload." ++ host ++ "/" ++ owner ++ "/" ++ repo
                      ++ "/tar.gz/" ++ commit)
              else if str_eq_dec (hd [] (Py.split "." host)) "gitlab" then
                Ok ("https://" ++ host ++ "/" ++ owner ++ "/" ++ repo
                      ++ "/repository/archive.tar.gz?ref=" ++ commit)
              else if str_eq_dec host "bitbucket.org" then
                Ok ("https://" ++ host ++ "/" ++ owner ++ "/" ++ repo
                      ++ "/get/" ++ commit ++ ".tar.gz")
              else
                Raise (ValueError ("Don't know how to get tarball for " ++ repo_url))
          end
      | _ => Raise (AssertionError "")
      end
  end.

(** ** The lock file *)

(** One [[package]] table of [Cargo.lock]: [name] and [version] are always
    there, [source] and [checksum] may be missing. *)
Record package : Type := mkPackage {
  name : str;
  version : str;
  source : option str;
  checksum : option str
}.

(** The parsed [Cargo.lock]: the optional [metadata] table of the older
    lock format and the list under the [package] key. *)
Record lockfile : Type := mkLockfile {
  metadata : option (dict str);
  packages : option (list package)
}.

(** What a checkout of a repository shows to [get_git_cargo_packages]: the
    name in the [package] table of the root [Cargo.toml], if any, and, when
    there is a [workspace] table, for each of its [members] the manifests
    the glob finds, each as the directory relative to the repository and
    the package name it declares. *)
Record checkout : Type := mkCheckout {
  root_package : option str;
  workspace_members : option (list (list (str * str)))
}.

Section Script.

(** The outside world.  [remote_sha256 url] is the digest of what [url]
    serves, [None] when the download fails; [git_repo git_url commit] is
    the checkout [fetch_git_repo] leaves behind, [None] when a [git]
    command fails; [toml_dumps] is the serialiser of the [toml]
    package. *)
Variable remote_sha256 : str -> option str.
Variable git_repo : str -> str -> option checkout.
Variable toml_dumps : value -> str.

(** [get_remote_sha256(url)] *)
Definition get_remote_sha256 (url : str) : M str :=
  emit (HttpGet url) ;;;
  match remote_sha256 url with
  | Some digest => ret digest
  | None => raise ClientError
  end.

(** [get_git_cargo_packages(git_url, commit)] *)
Definition get_git_cargo_packages (git_url commit : str) : M (dict str) :=
  emit (GitCheckout git_url commit) ;;;
  match git_repo git_url commit with
  | None => raise CalledProcessError
  | Some root_toml =>
      assert_ (match root_package root_toml, workspace_members root_toml with
               | None, None => false
               | _, _ => true
               end) "" ;;;
      let packages : dict str := [] in
      let packages :=
        match root_package root_toml with
        | Some n => dict_set n "." packages
        | None => packages
        end in
      let packages :=
        match workspace_members root_toml with
        | Some members =>
            fold_left
              (fun packages member =>
                 fold_left
                   (fun packages found =>
                      let '(subpkg, pkg_name) := found in
                      dict_set pkg_name subpkg packages)
                   member packages)
              members packages
        | None => packages
        end in
      ret packages
  end.

(** [parse_qs(query).get(key)]: the values of [key], in order; [None] when
    the key does not occur. *)
Definition parse_qs_get (qs : str) (key : str) : option (list str) :=
  match map snd (filter (fun nv => if str_eq_dec (fst nv) key then true else false)
                   (parse_qsl qs)) with
  | [] => None
  | vs => Some vs
  end.

Definition query_of (u : ParseResult) : str :=
  match query u with Some q => q | None => [] end.

Definition fragment_of (u : ParseResult) : str :=
  match fragment u with Some f => f | None => [] end.

(** The marker file [.cargo-checksum.json] of a vendored crate. *)
Definition checksum_marker (package_sum : value) (dest : str) : dict value :=
  [("type", VStr "file");
   ("url", VStr ("data:" ++ quote (Json.dumps
                   (VDict [("package", package_sum); ("files", VDict [])]))));
   ("dest", VStr dest);
   ("dest-filename", VStr ".cargo-checksum.json")].

(** [get_git_sources(package, tarball)]; the caller has checked that the
    package has a source. *)
Definition get_git_sources (package : package) (tarball : bool)
  : M (list (dict value) * dict value) :=
  let name := name package in
  match source package with
  | None => raise (KeyError "source")
  | Some source =>
      u <- lift (urlparse source) ;;
      let commit := fragment_of u in
      assert_ (negb (length commit =? 0))
        "The commit needs to be indicated in the fragement part" ;;;
      canonical <- lift (canonical_url source) ;;
      let repo_url := geturl canonical in
      let entry : dict value :=
        [("git", VStr repo_url); ("replace-with", VStr VENDORED_SOURCES)] in
      let selector key := parse_qs_get (query_of u) key in
      entry <-
        match selector "rev", selector "tag", selector "branch" with
        | Some rev, _, _ =>
            assert_ (length rev =? 1) "" ;;;
            ret (dict_set "rev" (VStr (hd [] rev)) entry)
        | None, Some tag, _ =>
            assert_ (length tag =? 1) "" ;;;
            ret (dict_set "tag" (VStr (hd [] tag)) entry)
        | None, None, Some branch =>
            assert_ (length branch =? 1) "" ;;;
            ret (dict_set "branch" (VStr (hd [] branch)) entry)
        | None, None, None => ret entry
        end ;;
      let cargo_vendored_entry : dict value := [(repo_url, VDict entry)] in
      git_sources <-
        (if tarball then
           tarball_url <- lift (get_git_tarball source commit) ;;
           sha256 <- get_remote_sha256 tarball_url ;;
           ret [[("type", VStr "archive");
                 ("archive-type", VStr "tar-gzip");
                 ("url", VStr tarball_url);
                 ("sha256", VStr sha256);
                 ("dest", VStr (CARGO_CRATES ++ "/" ++ name))]]
         else
           ret [[("type", VStr "git");
                 ("url", VStr repo_url);
                 ("commit", VStr commit);
                 ("dest", VStr (CARGO_CRATES ++ "/" ++ name))]]) ;;
      git_cargo_packages <- get_git_cargo_packages repo_url commit ;;
      match dict_get name git_cargo_packages with
      | None => raise (KeyError name)
      | Some pkg_subpath =>
          let git_sources :=
            if str_eq_dec pkg_subpath "." then git_sources
            else
              git_sources ++
              [[("type", VStr "shell");
                ("commands",
                  VList [
                    VStr ("mv " ++ CARGO_CRATES ++ "/" ++ name ++ " "
                            ++ CARGO_CRATES ++ "/" ++ name ++ ".repo");
                    VStr ("mv " ++ CARGO_CRATES ++ "/" ++ name ++ ".repo/"
                            ++ pkg_subpath ++ " "
                            ++ CARGO_CRATES ++ "/" ++ name);
                    VStr ("rm -rf " ++ CARGO_CRATES ++ "/" ++ name ++ ".repo")
                  ])]] in
          let git_sources :=
            git_sources ++
            [checksum_marker VNone (CARGO_CRATES ++ "/" ++ name)] in
          ret (git_sources, cargo_vendored_entry)
      end
  end.

(** [get_package_sources(package, cargo_lock, git_tarballs)]; the result
    [None] is the bare [return] of the two skipping branches. *)
Definition get_package_sources (package : package) (cargo_lock : lockfile)
    (git_tarballs : bool)
  : M (option (list (dict value) * dict value)) :=
  let metadata := metadata cargo_lock in
  let name := name package in
  let version := version package in
  match source package with
  | None =>
      emit (Warning (name ++ " has no source")) ;;;
      ret None
  | Some source =>
      if Py.startswith "git+" source then
        r <- get_git_sources package git_tarballs ;;
        ret (Some r)
      else
        let key := "checksum " ++ name ++ " " ++ version
                     ++ " (" ++ source ++ ")" in
        let crate_sources checksum : list (dict value) :=
          [[("type", VStr "file");
            ("url", VStr (CRATES_IO ++ "/" ++ name ++ "/" ++ name ++ "-"
                            ++ version ++ ".crate"));
            ("sha256", VStr checksum);
            ("dest", VStr CARGO_CRATES);
            ("dest-filename", VStr (name ++ "-" ++ version ++ ".crate"))];
           checksum_marker (VStr checksum)
             (CARGO_CRATES ++ "/" ++ name ++ "-" ++ version)] in
        let registry : dict value :=
          [("crates-io", VDict [("replace-with", VStr VENDORED_SOURCES)])] in
        match match metadata with
              | Some metadata => dict_get key metadata
              | None => None
              end with
        | Some checksum => ret (Some (crate_sources checksum, registry))
        | None =>
            match checksum package with
            | Some checksum => ret (Some (crate_sources checksum, registry))
            | None =>
                emit (Warning (name ++ " doesn't have checksum")) ;;;
                ret None
            end
        end
  end.

(** The loop of [generate_sources] over the gathered results. *)
Definition merge_results
    (results : list (option (list (dict value) * dict value)))
  : list (dict value) * dict value :=
  fold_left
    (fun acc pkg =>
       let '(sources, cargo_vendored_sources) := acc in
       match pkg with
       | None => acc
       | Some (pkg_sources, cargo_vendored_entry) =>
           (sources ++ pkg_sources,
            dict_update cargo_vendored_sources cargo_vendored_entry)
       end)
    results
    ([], [(VENDORED_SOURCES, VDict [("directory", VStr CARGO_CRATES)])]).

Definition extract_crates : dict value :=
  [("type", VStr "shell");
   ("dest", VStr CARGO_CRATES);
   ("commands", VList [VStr "for c in *.crate; do tar -xf $c; done"])].

Definition cargo_config (cargo_vendored_sources : dict value) : dict value :=
  [("type", VStr "file");
   ("url", VStr ("data:" ++ quote (toml_dumps
                   (VDict [("source", VDict cargo_vendored_sources)]))));
   ("dest", VStr CARGO_HOME);
   ("dest-filename", VStr "config")].

(** [generate_sources(cargo_lock, git_tarballs)] *)
Definition generate_sources (cargo_lock : lockfile) (git_tarballs : bool)
  : M (list (dict value)) :=
  match packages cargo_lock with
  | None => raise (KeyError "package")
  | Some pkgs =>
      let pkg_coros :=
        map (fun p => get_package_sources p cargo_lock git_tarballs) pkgs in
      results <- gather pkg_coros ;;
      let '(sources, cargo_vendored_sources) := merge_results results in
      let sources := sources ++ [extract_crates] in
      let sources := sources ++ [cargo_config cargo_vendored_sources] in
      ret sources
  end.

End Script.

(** ** The repository cache

    [fetch_git_repo] works on the file system and runs [git].  The world it
    acts on is a parameter: [isdir] is [os.path.isdir], [run] is
    [subprocess.run(args, cwd=cwd, check=True, stdout=PIPE)], which leads
    to a new world and gives the output of the command, or nothing when the
    command exits with a non-zero status.  A run of the function returns
    the world it leaves, the commands it ran, in order, and its result. *)

(** [posixpath.join(a, *p)] *)
Definition path_join (a : str) (p : list str) : str :=
  fold_left
    (fun path b =>
       if Py.startswith "/" b then b
       else if (length path =? 0) || Py.endswith "/" path then path ++ b
       else path ++ "/" ++ b)
    p a.

(** The characters [str.strip()] removes: the ASCII white space and the
    four separators 28 to 31. *)
Definition is_space (c : ascii) : bool :=
  let n := nat_of_ascii c in
  ((9 <=? n) && (n <=? 13)) || ((28 <=? n) && (n <=? 32)).

(** [s.strip()] *)
Definition strip (s : str) : str :=
  rev (Py.dropwhile is_space (rev (Py.dropwhile is_space s))).

Definition COMMIT_LEN : nat := 7.

(** One call of [subprocess.run]. *)
Record command : Type := mkCommand {
  argv : list str;
  cwd : option str
}.

Section FetchGitRepo.

Variable World : Type.
Variable isdir : World -> str -> bool.
Variable run : World -> list str -> option str -> World * option str.

(** [os.environ.get('XDG_CACHE_HOME')] and
    [os.path.expanduser('~/.cache')]. *)
Variable xdg_cache_home : option str.
Variable home_cache : str.

(** A computation on the world. *)
Definition Git (A : Type) : Type := World -> World * list command * result A.

Definition git_ret {A} (a : A) : Git A := fun w => (w, [], Ok a).

Definition git_bind {A B} (m : Git A) (k : A -> Git B) : Git B :=
  fun w =>
    match m w with
    | (w1, t1, Ok a) => let '(w2, t2, r) := k a w1 in (w2, t1 ++ t2, r)
    | (w1, t1, Raise e) => (w1, t1, Raise e)
    end.

(** [subprocess.run(args, cwd=cwd, check=True, stdout=subprocess.PIPE)] *)
Definition subprocess_run (args : list str) (dir : option str) : Git str :=
  fun w =>
    match run w args dir with
    | (w1, Some out) => (w1, [mkCommand args dir], Ok out)
    | (w1, None) => (w1, [mkCommand args dir], Raise CalledProcessError)
    end.

(** The name of the clone of [git_url] inside the cache. *)
Definition repo_dir (git_url : str) : str :=
  Py.replace "/" "_" (Py.replace "://" "_" git_url).

Definition cache_dir : str :=
  match xdg_cache_home with
  | Some d => d
  | None => home_cache
  end.

Definition clone_dir (git_url : str) : str :=
  path_join cache_dir ["flatpak-cargo"; repo_dir git_url].

(** [fetch_git_repo(git_url, commit)] *)
Definition fetch_git_repo (git_url commit : str) : Git str :=
  let clone_dir := clone_dir git_url in
  git_bind
    (fun w =>
       if negb (isdir w (path_join clone_dir [".git"]))
       then subprocess_run ["git"; "clone"; git_url; clone_dir] None w
       else git_ret [] w)
    (fun _ =>
       git_bind (subprocess_run ["git"; "rev-parse"; "HEAD"] (Some clone_dir))
         (fun stdout =>
            let head := strip stdout in
            git_bind
              (if str_eq_dec (firstn COMMIT_LEN head) (firstn COMMIT_LEN commit)
               then git_ret []
               else
                 git_bind
                   (subprocess_run ["git"; "fetch"; "origin"; commit]
                      (Some clone_dir))
                   (fun _ =>
                      subprocess_run ["git"; "checkout"; commit]
                        (Some clone_dir)))
              (fun _ => git_ret clone_dir))).

End FetchGitRepo.

Arguments git_ret {World A} a.
Arguments git_bind {World A B} m k.

(** ** Vocabulary of the statements *)

(** The key under which the older lock format records the checksum of a
    registry package in the [metadata] table. *)
Definition registry_key (p : package) (s : str) : str :=
  "checksum " ++ name p ++ " " ++ version p ++ " (" ++ s ++ ")".

(** The checksum the [metadata] table records for a registry package. *)
Definition metadata_checksum (lock : lockfile) (p : package) (s : str)
  : option str :=
  match metadata lock with
  | Some md => dict_get (registry_key p s) md
  | None => None
  end.

(** The checksum of a registry package, by precedence: the [metadata]
    table first, the inline field second. *)
Definition known_checksum (lock : lockfile) (p : package) (s : str)
  : option str :=
  match metadata_checksum lock p s with
  | Some c => Some c
  | None => checksum p
  end.

(** The two descriptors of a registry package with checksum [c]. *)
Definition registry_descriptors (p : package) (c : str) : list (dict value) :=
  [[("type", VStr "file");
    ("url", VStr ("https://static.crates.io/crates/" ++ name p
                    ++ "/" ++ name p ++ "-" ++ version p ++ ".crate"));
    ("sha256", VStr c);
    ("dest", VStr "cargo/vendor");
    ("dest-filename", VStr (name p ++ "-" ++ version p ++ ".crate"))];
   [("type", VStr "file");
    ("url", VStr ("data:" ++ quote (Json.dumps
              (VDict [("package", VStr c); ("files", VDict [])]))));
    ("dest", VStr ("cargo/vendor/" ++ name p ++ "-" ++ version p));
    ("dest-filename", VStr ".cargo-checksum.json")]].

(** The redirect entry of the registry. *)
Definition registry_redirect : dict value :=
  [("crates-io", VDict [("replace-with", VStr "vendored-sources")])].

(** The relocation step of a package that lives in the sub-directory
    [sub] of its repository. *)
Definition relocation (n sub : str) : dict value :=
  [("type", VStr "shell");
   ("commands",
     VList [VStr ("mv cargo/vendor/" ++ n ++ " cargo/vendor/" ++ n ++ ".repo");
            VStr ("mv cargo/vendor/" ++ n ++ ".repo/" ++ sub
                    ++ " cargo/vendor/" ++ n);
            VStr ("rm -rf cargo/vendor/" ++ n ++ ".repo")])].

(** The sub-directory [get_git_cargo_packages] finds for a package in the
    repository its source names, when the repository can be materialised
    and declares the package. *)
Definition discovered_subpath (git_repo : str -> str -> option checkout)
    (p : package) : option str :=
  match source p with
  | Some s =>
      match urlparse s, canonical_url s with
      | Ok u, Ok c =>
          match snd (get_git_cargo_packages git_repo (geturl c) (fragment_of u)) with
          | Ok pkgs => dict_get (name p) pkgs
          | Raise _ => None
          end
      | _, _ => None
      end
  | None => None
  end.

(** The revision selector [get_git_sources] records: [rev] when the query
    has one, else [tag], else [branch], with every value the query gives
    it. *)
Definition chosen_selector (qs : str) : option (str * list str) :=
  match parse_qs_get qs "rev", parse_qs_get qs "tag", parse_qs_get qs "branch" with
  | Some vs, _, _ => Some ("rev", vs)
  | None, Some vs, _ => Some ("tag", vs)
  | None, None, Some vs => Some ("branch", vs)
  | None, None, None => None
  end.



(** The [type] of a descriptor. *)
Definition type_of (d : dict value) : option value := dict_get "type" d.

(** ** Vocabulary of the proofs *)

(** [x] occurs in [s] as a contiguous piece. *)
Definition infix (x s : str) : Prop := exists a b, s = a ++ x ++ b.

(** [s] is empty or starts with [c]. *)
Definition empty_or_starts (c : ascii) (s : str) : Prop :=
  s = [] \/ exists r, s = c :: r.

(** The characters that end the authority of a URL. *)
Definition is_delim (c : ascii) : bool := Py.mem c "/?#".

(** The authority of a URL, read after its two slashes: everything up to
    the first of [/], [?] and [#]. *)
Fixpoint span_authority (s : str) : str * str :=
  match s with
  | [] => ([], [])
  | c :: r =>
      if is_delim c then ([], s)
      else let '(a, b) := span_authority r in (c :: a, b)
  end.

(** The first two steps of [urlsplit]: leading control characters and
    spaces are stripped, then tabs, carriage returns and line feeds are
    deleted. *)
Definition clean_url (url : str) : str :=
  remove_unsafe (Py.dropwhile c0_control_or_space url).

(** What [urlsplit] guarantees about the scheme, the authority and the
    path it cuts out of the cleaned URL [clean]. *)
Definition split_wf (clean sch net path : str) : Prop :=
  (sch = []
   \/ exists c pre,
        sch = Py.lower (c :: pre)
        /\ Py.is_ascii_alpha c = true
        /\ forallb scheme_char (c :: pre) = true
        /\ infix (c :: pre) clean)
  /\ (Py.mem "/" net = false /\ Py.mem "?" net = false
      /\ Py.mem "#" net = false /\ unbalanced_brackets net = false)
  /\ (Py.mem "?" path = false /\ Py.mem "#" path = false)
  /\ infix net clean
  /\ infix path clean
  /\ (net <> [] -> empty_or_starts "/" path).

(** The same guarantees for the result of [urlparse]. *)
Definition parse_wf (clean : str) (u : ParseResult) : Prop :=
  split_wf clean (scheme u) (netloc u) (path u).

(** The last step of [canonical_url]: one [.git] suffix is dropped. *)
Definition strip_git (p : str) : str :=
  if Py.endswith ".git" p then firstn (length p - 4) p else p.

(** The test [u.netloc == 'github.com']. *)
Definition on_github (u : ParseResult) : bool :=
  if str_eq_dec (netloc u) "github.com" then true else false.

(** What [canonical_url] makes of the result of [urlparse]. *)
Definition canonical_of (u : ParseResult) : ParseResult :=
  mkParseResult
    (if on_github u then "https" else scheme u)
    (netloc u)
    (strip_git (if on_github u then Py.lower (Py.rstrip "/" (path u))
                else Py.rstrip "/" (path u)))
    None None None.

(** The path [canonical_url] returns, seen from the parsed one. *)
Definition canonical_path (u : ParseResult) : str := path (canonical_of u).

(** The first character of a [git+...] source: after the rewrite of
    [git+https://] it is [g] or [h], and it is still the first character of
    the string form of the canonical URL. *)
Definition vcs_head (c : ascii) : Prop := c = "g"%char \/ c = "h"%char.

(** A package result never carries the key [vendored-sources]. *)
Definition foreign_entry (r : option (list (dict value) * dict value)) : Prop :=
  match r with
  | None => True
  | Some (_, entry) => exists k v, entry = [(k, v)] /\ k <> VENDORED_SOURCES
  end.

(** The redirect mapping [generate_sources] builds: the entry of the
    vendor directory first, every package entry merged on top. *)
Definition merged_redirects
    (results : list (option (list (dict value) * dict value))) : dict value :=
  fold_left
    (fun d r => match r with
                | Some (_, entry) => dict_update d entry
                | None => d
                end)
    results
    [("vendored-sources", VDict [("directory", VStr "cargo/vendor")])].

(** ** A small lock file

    A world in which nothing can be downloaded and every repository is a
    workspace with the package [r] at its root and the package [foo] under
    [crates/foo]; a crate of the registry and a crate of a git repository;
    JSON standing in for the TOML serialiser. *)

Definition example_offline : str -> option str := fun _ => None.

Definition example_repo : str -> str -> option checkout :=
  fun _ _ => Some (mkCheckout (Some "r") (Some [[("crates/foo", "foo")]])).

Definition example_toml : value -> str := Json.dumps.

Definition example_crate : package :=
  mkPackage "libc" "0.2.0"
    (Some "registry+https://github.com/rust-lang/crates.io-index")
    (Some "abc123").

Definition example_git_crate : package :=
  mkPackage "foo" "0.1.0"
    (Some "git+https://github.com/o/r?rev=abc#deadbee") None.

Definition example_lock : lockfile :=
  mkLockfile None (Some [example_crate; example_git_crate]).

(** The descriptors of a finished run, empty for a run that failed. *)
Definition manifest_of (run : M (list (dict value))) : list (dict value) :=
  match snd run with
  | Ok sources => sources
  | Raise _ => []
  end.

(** ** Vocabulary of the further properties *)



(** The selector step of [get_git_sources]: the redirect record with the
    selector the query gives, or the failed assertion. *)
Definition selector_entry (u canonical : ParseResult) : result (dict value) :=
  let entry : dict value :=
    [("git", VStr (geturl canonical)); ("replace-with", VStr "vendored-sources")] in
  match chosen_selector (query_of u) with
  | Some (k, [v]) => Ok (entry ++ [(k, VStr v)])
  | Some (_, _) => Raise (AssertionError "")
  | None => Ok entry
  end.

(** The checkout descriptor of the live mode. *)
Definition git_descriptor (n repo_url commit : str) : dict value :=
  [("type", VStr "git");
   ("url", VStr repo_url);
   ("commit", VStr commit);
   ("dest", VStr ("cargo/vendor/" ++ n))].

(** The archive descriptor of the tarball mode. *)
Definition archive_descriptor (n tarball_url digest : str) : dict value :=
  [("type", VStr "archive");
   ("archive-type", VStr "tar-gzip");
   ("url", VStr tarball_url);
   ("sha256", VStr digest);
   ("dest", VStr ("cargo/vendor/" ++ n))].




(** The descriptors a package result contributes. *)
Definition descriptors_of (r : option (list (dict value) * dict value))
  : list (dict value) :=
  match r with
  | Some (srcs, _) => srcs
  | None => []
  end.


Definition git_rev_parse (dir : str) : command :=
  mkCommand ["git"; "rev-parse"; "HEAD"] (Some dir).



(** A command is a [git clone]. *)
Definition is_clone (c : command) : bool :=
  match argv c with
  | _ :: verb :: _ => if str_eq_dec verb "clone" then true else false
  | _ => false
  end.

(** A small world for [fetch_git_repo]: the directories that exist.
    [git clone] creates the [.git] directory of its target, every command
    succeeds, and [git rev-parse] prints the same line each time. *)
Definition toy_isdir (w : list str) (p : str) : bool :=
  existsb (fun q => if str_eq_dec p q then true else false) w.

Definition toy_run (w : list str) (args : list str) (dir : option str)
  : list str * option str :=
  if is_clone (mkCommand args dir)
  then (path_join (nth 3 args []) [".git"] :: w, Some [])
  else (w, Some ("0123456789abcdef" ++ [ascii_of_nat 10])).

(** A mirror that serves every URL, with the same digest. *)
Definition example_mirror : str -> option str := fun _ => Some "e3b0c442".

(** * Properties *)

(** *** Python strings *)

Arguments Ascii.eqb : simpl never.
Arguments Py.startswith : simpl nomatch.

Lemma eqb_sym_false : forall a b : ascii, Ascii.eqb a b = false -> Ascii.eqb b a = false.
Proof. intros a b H. rewrite Ascii.eqb_sym. exact H. Qed.

Lemma mem_app : forall c a b, Py.mem c (a ++ b) = Py.mem c a || Py.mem c b.
Proof. intros c a b. unfold Py.mem. apply existsb_app. Qed.

Lemma mem_cons : forall c a s, Py.mem c (a :: s) = Ascii.eqb c a || Py.mem c s.
Proof. reflexivity. Qed.

Lemma find_None_mem : forall c s, Py.find c s = None <-> Py.mem c s = false.
Proof.
  intros c s. induction s as [|a s IH]; simpl.
  - tauto.
  - rewrite (Ascii.eqb_sym a c).
    destruct (Ascii.eqb c a); simpl.
    + split; discriminate.
    + rewrite <- IH. destruct (Py.find c s); simpl; split; congruence.
Qed.

Lemma find_app_l :
  forall c a b, Py.mem c a = false ->
    Py.find c (a ++ b) = option_map (Nat.add (length a)) (Py.find c b).
Proof.
  intros c a b. induction a as [|x a IH]; simpl; intros H.
  - destruct (Py.find c b); reflexivity.
  - apply orb_false_iff in H as [Hx Ha].
    rewrite (Ascii.eqb_sym x c), Hx, (IH Ha).
    destruct (Py.find c b); reflexivity.
Qed.

Lemma find_here :
  forall c a b, Py.mem c a = false -> Py.find c (a ++ c :: b) = Some (length a).
Proof.
  intros c a b H. rewrite (find_app_l _ _ _ H). simpl.
  rewrite Ascii.eqb_refl. simpl. f_equal. lia.
Qed.

(** What [find] returns is the place of the first occurrence. *)
Lemma find_Some_split :
  forall c s i, Py.find c s = Some i ->
    s = firstn i s ++ c :: skipn (S i) s
    /\ Py.mem c (firstn i s) = false
    /\ length (firstn i s) = i.
Proof.
  intros c s. induction s as [|a s IH]; simpl; intros i H.
  - discriminate.
  - destruct (Ascii.eqb a c) eqn:E.
    + injection H as <-. apply Ascii.eqb_eq in E. subst a. auto.
    + destruct (Py.find c s) as [j|]; [|discriminate].
      injection H as <-. destruct (IH j eq_refl) as (H1 & H2 & H3).
      simpl. rewrite (Ascii.eqb_sym c a), E, H2, H3. simpl.
      repeat split; auto. f_equal. exact H1.
Qed.

Lemma startswith_app :
  forall p s, Py.startswith p s = true <-> exists t, s = p ++ t.
Proof.
  induction p as [|a p IH]; intros s.
  - split; [intros _; exists s; reflexivity | intros _; destruct s; reflexivity].
  - destruct s as [|b s]; cbn [Py.startswith].
    + split; [discriminate | intros [t H]; discriminate].
    + rewrite andb_true_iff, IH, Ascii.eqb_eq. split.
      * intros [-> [t ->]]. exists t. reflexivity.
      * intros [t H]. injection H as -> ->. split; [reflexivity | eauto].
Qed.

Lemma endswith_app :
  forall p s, Py.endswith p s = true <-> exists t, s = t ++ p.
Proof.
  intros p s. unfold Py.endswith. rewrite startswith_app. split.
  - intros [t H]. exists (rev t).
    rewrite <- (rev_involutive s), H, rev_app_distr, rev_involutive. reflexivity.
  - intros [t ->]. exists (rev t). apply rev_app_distr.
Qed.

(** Removing a one-character [old] is a filter. *)
Lemma replace_char_filter :
  forall b s, Py.replace [b] [] s = filter (fun c => negb (Ascii.eqb b c)) s.
Proof.
  intros b s. unfold Py.replace. induction s as [|c s IH]; simpl.
  - reflexivity.
  - destruct (Ascii.eqb b c); simpl; rewrite IH; reflexivity.
Qed.

Lemma dropwhile_suffix :
  forall p s, exists l, s = l ++ Py.dropwhile p s /\ forallb p l = true.
Proof.
  intros p s. induction s as [|c s [l [IH1 IH2]]]; simpl.
  - exists []. auto.
  - destruct (p c) eqn:E.
    + exists (c :: l). simpl. rewrite E, IH2. split; [f_equal; exact IH1 | reflexivity].
    + exists []. auto.
Qed.

Lemma dropwhile_snoc :
  forall p l c, p c = false -> Py.dropwhile p (l ++ [c]) = Py.dropwhile p l ++ [c].
Proof.
  intros p l c H. induction l as [|a l IH]; simpl.
  - rewrite H. reflexivity.
  - destruct (p a); [exact IH | reflexivity].
Qed.

(** [rstrip] keeps a string that does not end with one of the characters. *)
Lemma rstrip_cons :
  forall chars c s, Py.mem c chars = false ->
    Py.rstrip chars (c :: s) = c :: Py.rstrip chars s.
Proof.
  intros chars c s H. unfold Py.rstrip. simpl.
  rewrite dropwhile_snoc by exact H.
  rewrite rev_app_distr. reflexivity.
Qed.

Lemma rstrip_prefix :
  forall chars s, exists t, s = Py.rstrip chars s ++ t.
Proof.
  intros chars s. unfold Py.rstrip.
  destruct (dropwhile_suffix (fun c => Py.mem c chars) (rev s)) as [l [H _]].
  exists (rev l). rewrite <- rev_app_distr, <- H, rev_involutive. reflexivity.
Qed.

Lemma rstrip_noop :
  forall s, Py.endswith "/" s = false -> Py.rstrip "/" s = s.
Proof.
  intros s H. unfold Py.rstrip, Py.endswith in *. simpl in H.
  destruct (rev s) as [|c r] eqn:E.
  - simpl. rewrite <- (rev_involutive s), E. reflexivity.
  - simpl in *. rewrite orb_false_r. rewrite andb_true_r in H.
    rewrite Ascii.eqb_sym, H.
    rewrite <- E. apply rev_involutive.
Qed.

Lemma lower_char_idem : forall c, Py.lower_char (Py.lower_char c) = Py.lower_char c.
Proof. intros [[] [] [] [] [] [] [] []]; reflexivity. Qed.

Lemma lower_idem : forall s, Py.lower (Py.lower s) = Py.lower s.
Proof.
  intros s. unfold Py.lower. rewrite map_map.
  apply map_ext. apply lower_char_idem.
Qed.

Lemma lower_app : forall a b, Py.lower (a ++ b) = Py.lower a ++ Py.lower b.
Proof. intros. apply map_app. Qed.

(** Lowering produces a character that is not a lower-case letter only
    from that character itself. *)
Lemma lower_char_inv :
  forall c x, Py.is_lower c = false -> Py.lower_char x = c -> x = c.
Proof.
  intros c x Hc <-. revert Hc.
  destruct x as [[] [] [] [] [] [] [] []]; vm_compute; congruence.
Qed.

(** A character that is not a letter appears in [s.lower()] exactly where
    it appears in [s]. *)
Lemma mem_lower :
  forall c s, Py.is_ascii_alpha c = false -> Py.mem c (Py.lower s) = Py.mem c s.
Proof.
  intros c s Hc. unfold Py.is_ascii_alpha in Hc.
  apply orb_false_iff in Hc as [Hu Hl].
  induction s as [|x s IH]; simpl; [reflexivity|].
  rewrite IH. f_equal.
  destruct (Ascii.eqb c x) eqn:E.
  - apply Ascii.eqb_eq in E. subst x. apply Ascii.eqb_eq.
    unfold Py.lower_char. rewrite Hu. reflexivity.
  - apply Ascii.eqb_neq. intros E'. apply Ascii.eqb_neq in E. apply E.
    symmetry. apply (lower_char_inv c x Hl). symmetry. exact E'.
Qed.

Lemma infix_refl : forall s, infix s s.
Proof. intros s. exists [], []. rewrite app_nil_r. reflexivity. Qed.

Lemma infix_trans : forall x y z, infix x y -> infix y z -> infix x z.
Proof.
  intros x y z (a & b & ->) (c & d & ->).
  exists (c ++ a), (b ++ d). rewrite !app_assoc. reflexivity.
Qed.

Lemma infix_prefix : forall x t, infix x (x ++ t).
Proof. intros x t. exists [], t. reflexivity. Qed.

Lemma infix_suffix : forall a x, infix x (a ++ x).
Proof. intros a x. exists a, []. rewrite app_nil_r. reflexivity. Qed.

Lemma infix_firstn : forall n s, infix (firstn n s) s.
Proof.
  intros n s. rewrite <- (firstn_skipn n s) at 2. apply infix_prefix.
Qed.

Lemma infix_skipn : forall n s, infix (skipn n s) s.
Proof.
  intros n s. rewrite <- (firstn_skipn n s) at 2. apply infix_suffix.
Qed.

Lemma infix_mem :
  forall c x s, infix x s -> Py.mem c s = false -> Py.mem c x = false.
Proof.
  intros c x s (a & b & ->) H. rewrite !mem_app in H.
  apply orb_false_iff in H as [_ H]. apply orb_false_iff in H as [H _].
  exact H.
Qed.

Lemma empty_or_starts_prefix :
  forall c x t, empty_or_starts c (x ++ t) -> empty_or_starts c x.
Proof.
  intros c [|a x] t H; [left; reflexivity|].
  destruct H as [H | [r H]]; [discriminate|].
  injection H as -> _. right. eauto.
Qed.

(** *** The steps of [urlsplit] *)

Lemma splitnetloc_span :
  forall rest, _splitnetloc ("/"%char :: "/"%char :: rest) 2 = span_authority rest.
Proof.
  intros rest. unfold _splitnetloc, Py.find_from, Py.slice.
  cbn [fold_left skipn length].
  set (d := fun r =>
              let d0 := length r in
              let d1 := match Py.find "/" r with Some w => Nat.min d0 w | None => d0 end in
              let d2 := match Py.find "?" r with Some w => Nat.min d1 w | None => d1 end in
              match Py.find "#" r with Some w => Nat.min d2 w | None => d2 end).
  assert (Hd : (firstn (d rest) rest, skipn (d rest) rest) = span_authority rest).
  { induction rest as [|c r IH].
    - reflexivity.
    - cbn [span_authority]. unfold is_delim. rewrite <- IH. clear IH.
      unfold d. cbn [Py.find length Py.mem existsb].
      rewrite !(Ascii.eqb_sym c).
      destruct (Ascii.eqb "/" c), (Ascii.eqb "?" c), (Ascii.eqb "#" c);
        cbn [orb];
        destruct (Py.find "/" r), (Py.find "?" r), (Py.find "#" r);
        cbn [option_map]; rewrite ?Nat.min_0_r; try reflexivity;
        rewrite <- ?Nat.succ_min_distr; reflexivity. }
  rewrite <- Hd. unfold d.
  destruct (Py.find "/" rest), (Py.find "?" rest), (Py.find "#" rest);
    cbn [option_map];
    repeat match goal with
           | |- context [Nat.min (S (S ?a)) (2 + ?b)] =>
               change (Nat.min (S (S a)) (2 + b)) with (S (S (Nat.min a b)))
           end;
    cbn [skipn Nat.sub]; rewrite ?Nat.sub_0_r; reflexivity.
Qed.

Lemma span_authority_spec :
  forall s a b, span_authority s = (a, b) ->
    s = a ++ b
    /\ Py.mem "/" a = false /\ Py.mem "?" a = false /\ Py.mem "#" a = false
    /\ (b = [] \/ exists c r, b = c :: r /\ is_delim c = true).
Proof.
  induction s as [|c r IH]; intros a b H; cbn [span_authority] in H.
  - injection H as <- <-. repeat split; auto.
  - destruct (is_delim c) eqn:E.
    + injection H as <- <-. repeat split; auto. right. eauto.
    + destruct (span_authority r) as [a' b'].
      injection H as <- <-.
      destruct (IH a' b' eq_refl) as (-> & H1 & H2 & H3 & H4).
      unfold is_delim in E. cbn [Py.mem existsb] in E.
      rewrite !(Ascii.eqb_sym c) in E.
      apply orb_false_iff in E as [E1 E]. apply orb_false_iff in E as [E2 E].
      apply orb_false_iff in E as [E3 _].
      rewrite !mem_cons, E1, E2, E3, H1, H2, H3. repeat split; auto.
Qed.

Lemma span_authority_app :
  forall a b,
    Py.mem "/" a = false -> Py.mem "?" a = false -> Py.mem "#" a = false ->
    empty_or_starts "/" b ->
    span_authority (a ++ b) = (a, b).
Proof.
  induction a as [|c a IH]; intros b H1 H2 H3 Hb; cbn [app].
  - destruct Hb as [-> | [r ->]]; reflexivity.
  - rewrite mem_cons in H1, H2, H3.
    apply orb_false_iff in H1 as [E1 H1]. apply orb_false_iff in H2 as [E2 H2].
    apply orb_false_iff in H3 as [E3 H3].
    cbn [span_authority]. unfold is_delim. cbn [Py.mem existsb].
    rewrite !(Ascii.eqb_sym c), E1, E2, E3. cbn [orb].
    rewrite (IH b H1 H2 H3 Hb). reflexivity.
Qed.

Lemma scheme_char_not_colon :
  forall s, forallb scheme_char s = true -> Py.mem ":" s = false.
Proof.
  induction s as [|c s IH]; cbn [forallb]; intros H; [reflexivity|].
  apply andb_true_iff in H as [Hc Hs].
  rewrite mem_cons, (IH Hs), orb_false_r.
  destruct (Ascii.eqb ":" c) eqn:E; [|reflexivity].
  apply Ascii.eqb_eq in E. subst c. discriminate Hc.
Qed.

Lemma split_scheme_inv :
  forall url sch rest, split_scheme url = (sch, rest) ->
    (sch = [] /\ rest = url)
    \/ (exists c pre,
          url = (c :: pre) ++ ":"%char :: rest
          /\ sch = Py.lower (c :: pre)
          /\ Py.is_ascii_alpha c = true
          /\ forallb scheme_char (c :: pre) = true).
Proof.
  intros url sch rest H. unfold split_scheme in H.
  destruct (Py.find ":" url) as [[|i]|] eqn:F;
    try (injection H as <- <-; left; split; reflexivity).
  destruct url as [|c url']; cbn [andb] in H;
    [injection H as <- <-; left; split; reflexivity|].
  destruct (Py.is_ascii_alpha c && forallb scheme_char (firstn (S i) (c :: url')))
    eqn:E; [|injection H as <- <-; left; split; reflexivity].
  injection H as <- <-. right.
  apply andb_true_iff in E as [Ea Ef].
  destruct (find_Some_split _ _ _ F) as (Hs & _ & _).
  cbn [firstn] in *. exists c, (firstn i url'). repeat split; auto.
Qed.

Lemma split_scheme_scheme :
  forall c pre rest,
    Py.is_ascii_alpha c = true ->
    forallb scheme_char (c :: pre) = true ->
    split_scheme ((c :: pre) ++ ":"%char :: rest) = (Py.lower (c :: pre), rest).
Proof.
  intros c pre rest Ha Hf. unfold split_scheme.
  rewrite (find_here ":" (c :: pre) rest (scheme_char_not_colon _ Hf)).
  cbn [length].
  assert (Hfirst : firstn (S (length pre)) ((c :: pre) ++ ":"%char :: rest) = c :: pre).
  { change (S (length pre)) with (length (c :: pre)).
    rewrite firstn_app, Nat.sub_diag, firstn_all. cbn [firstn]. apply app_nil_r. }
  assert (Hskip : skipn (S (S (length pre))) ((c :: pre) ++ ":"%char :: rest) = rest).
  { change (S (S (length pre))) with (S (length (c :: pre))).
    replace (S (length (c :: pre))) with (length ((c :: pre) ++ [":"%char]))
      by (rewrite length_app; cbn [length]; lia).
    change ((c :: pre) ++ ":"%char :: rest) with ((c :: pre) ++ [":"%char] ++ rest).
    rewrite app_assoc, skipn_app, Nat.sub_diag, skipn_all. reflexivity. }
  rewrite Hfirst, Hskip. cbn [app]. rewrite Ha, Hf. reflexivity.
Qed.

Lemma split_scheme_none :
  forall c url, Py.is_ascii_alpha c = false -> split_scheme (c :: url) = ([], c :: url).
Proof.
  intros c url H. unfold split_scheme.
  destruct (Py.find ":" (c :: url)) as [[|i]|]; try reflexivity.
  rewrite H. reflexivity.
Qed.

Lemma split_at_noop :
  forall c s, Py.mem c s = false -> split_at c s = (s, []).
Proof.
  intros c s H. unfold split_at, Py.partition.
  apply find_None_mem in H. rewrite H. reflexivity.
Qed.

Lemma split_at_inv :
  forall c s a b, split_at c s = (a, b) ->
    Py.mem c a = false /\ exists t, s = a ++ t.
Proof.
  intros c s a b H. unfold split_at, Py.partition in H.
  destruct (Py.find c s) as [i|] eqn:F.
  - injection H as <- <-. destruct (find_Some_split _ _ _ F) as (Hs & Hm & _).
    split; [exact Hm | eauto].
  - injection H as <- <-. split; [apply find_None_mem; exact F|].
    exists []. symmetry. apply app_nil_r.
Qed.

Lemma splitparams_prefix :
  forall url, exists t, url = fst (_splitparams url) ++ t.
Proof.
  intros url. unfold _splitparams.
  assert (Hf : forall i, exists t, url = firstn i url ++ t)
    by (intros i; exists (skipn i url); symmetry; apply firstn_skipn).
  assert (Hu : exists t, url = url ++ t)
    by (exists []; symmetry; apply app_nil_r).
  destruct (Py.mem "/" url).
  - destruct (Py.rfind "/" url); [|exact Hu].
    destruct (Py.find_from ";" _ url); [apply Hf | exact Hu].
  - destruct (Py.find ";" url); [apply Hf | exact Hu].
Qed.

(** *** [urlsplit] and [urlparse] *)

Lemma urlsplit_inv :
  forall url sch net path q f,
    urlsplit url = Ok (sch, net, path, q, f) ->
    exists rest1 rest2 a1,
      split_scheme (clean_url url) = (sch, rest1)
      /\ (if Py.startswith "//" rest1 then _splitnetloc rest1 2 else ([], rest1))
         = (net, rest2)
      /\ unbalanced_brackets net = false
      /\ split_at "#" rest2 = (a1, f)
      /\ split_at "?" a1 = (path, q).
Proof.
  intros url sch net path q f H. unfold urlsplit in H. fold (clean_url url) in H.
  destruct (split_scheme (clean_url url)) as [sch' rest1].
  destruct (if Py.startswith "//" rest1 then _ else _) as [net' rest2] eqn:Hn.
  destruct (unbalanced_brackets net') eqn:Hb; [discriminate|].
  destruct (split_at "#" rest2) as [a1 f'] eqn:Hf.
  destruct (split_at "?" a1) as [path' q'] eqn:Hq.
  injection H as <- <- <- <- <-.
  exists rest1, rest2, a1. auto.
Qed.

Lemma urlsplit_parts :
  forall url sch rest1 net rest2 a1 f path q,
    split_scheme (clean_url url) = (sch, rest1) ->
    (if Py.startswith "//" rest1 then _splitnetloc rest1 2 else ([], rest1))
      = (net, rest2) ->
    unbalanced_brackets net = false ->
    split_at "#" rest2 = (a1, f) ->
    split_at "?" a1 = (path, q) ->
    urlsplit url = Ok (sch, net, path, q, f).
Proof.
  intros url sch rest1 net rest2 a1 f path q H1 H2 H3 H4 H5.
  unfold urlsplit. fold (clean_url url). rewrite H1, H2, H3, H4, H5. reflexivity.
Qed.

Lemma mem_filter :
  forall b f s, Py.mem b (filter f s) = f b && Py.mem b s.
Proof.
  intros b f s. induction s as [|c s IH]; cbn [filter].
  - cbn. symmetry. apply andb_false_r.
  - destruct (f c) eqn:E; rewrite ?mem_cons, IH.
    + destruct (Ascii.eqb b c) eqn:Eb; cbn [orb].
      * apply Ascii.eqb_eq in Eb. subst c. rewrite E. reflexivity.
      * reflexivity.
    + destruct (Ascii.eqb b c) eqn:Eb; cbn [orb]; [|reflexivity].
      apply Ascii.eqb_eq in Eb. subst c. rewrite E. reflexivity.
Qed.

Lemma clean_url_clean :
  forall url b, In b unsafe_url_bytes -> Py.mem b (clean_url url) = false.
Proof.
  intros url b Hb. unfold clean_url, remove_unsafe, unsafe_url_bytes in *.
  cbn [fold_left]. rewrite !replace_char_filter, !mem_filter.
  destruct Hb as [<- | [<- | [<- | []]]]; reflexivity.
Qed.

(** Tab, carriage return and line feed are no letters. *)
Lemma unsafe_not_alpha :
  forall b, In b unsafe_url_bytes -> Py.is_ascii_alpha b = false.
Proof.
  intros b [<- | [<- | [<- | []]]]; reflexivity.
Qed.

Lemma split_wf_prefix :
  forall clean sch net path t,
    split_wf clean sch net (path ++ t) -> split_wf clean sch net path.
Proof.
  intros clean sch net path t (Hs & Hn & (Hq & Hf) & Hin & Hip & Ha).
  repeat apply conj; try tauto.
  - apply (infix_mem _ _ _ (infix_prefix path t) Hq).
  - apply (infix_mem _ _ _ (infix_prefix path t) Hf).
  - exact (infix_trans _ _ _ (infix_prefix path t) Hip).
  - intros Hne. exact (empty_or_starts_prefix _ _ _ (Ha Hne)).
Qed.

Lemma urlsplit_wf :
  forall url sch net path q f,
    urlsplit url = Ok (sch, net, path, q, f) ->
    split_wf (clean_url url) sch net path.
Proof.
  intros url sch net path q f H.
  apply urlsplit_inv in H as (rest1 & rest2 & a1 & Hsch & Hnet & Hb & Hf & Hq).
  apply split_at_inv in Hf as (Hf & tf & ->).
  apply split_at_inv in Hq as (Hq & tq & ->).
  rewrite mem_app in Hf. apply orb_false_iff in Hf as [Hf _].
  assert (Hrest1 : infix rest1 (clean_url url)).
  { apply split_scheme_inv in Hsch as [[_ ->] | (c & pre & -> & _)].
    - apply infix_refl.
    - change ((c :: pre) ++ ":"%char :: rest1)
        with ((c :: pre) ++ [":"%char] ++ rest1).
      rewrite app_assoc. apply infix_suffix. }
  assert (Hscheme : sch = []
            \/ exists c pre,
                 sch = Py.lower (c :: pre)
                 /\ Py.is_ascii_alpha c = true
                 /\ forallb scheme_char (c :: pre) = true
                 /\ infix (c :: pre) (clean_url url)).
  { apply split_scheme_inv in Hsch as [[-> _] | (c & pre & -> & -> & Ha & Hc)].
    - left. reflexivity.
    - right. exists c, pre. repeat split; auto. apply infix_prefix. }
  assert (Hauth : Py.mem "/" net = false /\ Py.mem "?" net = false
                  /\ Py.mem "#" net = false
                  /\ infix net rest1 /\ infix ((path ++ tq) ++ tf) rest1
                  /\ (net <> [] ->
                      (path ++ tq) ++ tf = []
                      \/ exists c r, (path ++ tq) ++ tf = c :: r
                                     /\ is_delim c = true)).
  { destruct (Py.startswith "//" rest1) eqn:E.
    - apply startswith_app in E as [r ->].
      change ("//" ++ r) with ("/"%char :: "/"%char :: r) in Hnet.
      rewrite splitnetloc_span in Hnet.
      apply span_authority_spec in Hnet as (-> & H1 & H2 & H3 & H4).
      split; [exact H1|]. split; [exact H2|]. split; [exact H3|].
      split; [exists "//", ((path ++ tq) ++ tf); reflexivity|].
      split; [|intros _; exact H4].
      change ("//" ++ net ++ (path ++ tq) ++ tf)
        with (("//" ++ net) ++ (path ++ tq) ++ tf).
      apply infix_suffix.
    - injection Hnet as <- ->.
      split; [reflexivity|]. split; [reflexivity|]. split; [reflexivity|].
      split; [exists [], ((path ++ tq) ++ tf); reflexivity|].
      split; [apply infix_refl|].
      intros Hne. contradiction. }
  destruct Hauth as (H1 & H2 & H3 & Hin & Hip & Ha).
  repeat apply conj; auto.
  - exact (infix_trans _ _ _ Hin Hrest1).
  - rewrite <- app_assoc in Hip.
    exact (infix_trans _ _ _ (infix_trans _ _ _ (infix_prefix _ _) Hip) Hrest1).
  - intros Hne. destruct (Ha Hne) as [E | (c & r & E & Hd)].
    + left. destruct path; [reflexivity | discriminate].
    + destruct path as [|x path]; [left; reflexivity|].
      injection E as -> _. right. exists path. f_equal.
      rewrite mem_cons in Hq, Hf. apply orb_false_iff in Hq as [Hq _].
      apply orb_false_iff in Hf as [Hf _].
      unfold is_delim in Hd. cbn [Py.mem existsb] in Hd.
      rewrite (Ascii.eqb_sym c "?"), Hq, (Ascii.eqb_sym c "#"), Hf in Hd.
      rewrite !orb_false_r in Hd. apply Ascii.eqb_eq in Hd. exact Hd.
Qed.

Lemma urlparse_wf :
  forall url u, urlparse url = Ok u -> parse_wf (clean_url url) u.
Proof.
  intros url u H. unfold urlparse in H.
  destruct (urlsplit url) as [[[[[sch net] path0] q] f]|] eqn:Hs; [|discriminate].
  apply urlsplit_wf in Hs.
  destruct (in_list sch uses_params && Py.mem ";" path0).
  - destruct (splitparams_prefix path0) as [t Ht].
    destruct (_splitparams path0) as [p' params'].
    injection H as <-. unfold parse_wf. cbn [scheme netloc path fst] in *.
    rewrite Ht in Hs. exact (split_wf_prefix _ _ _ _ _ Hs).
  - injection H as <-. exact Hs.
Qed.

(** *** [canonical_url], step by step *)

Lemma canonical_url_eq :
  forall url,
    canonical_url url =
    match urlparse (Py.replace "git+https://" "https://" url) with
    | Ok u => Ok (canonical_of u)
    | Raise e => Raise e
    end.
Proof.
  intros url. unfold canonical_url, canonical_of, on_github, strip_git.
  destruct (urlparse _) as [u|e]; [|reflexivity].
  cbn [scheme netloc path params query fragment].
  destruct (str_eq_dec (netloc u) "github.com");
    cbn [scheme netloc path params query fragment];
    destruct (Py.endswith ".git" _); reflexivity.
Qed.

Lemma strip_git_prefix : forall p, exists t, p = strip_git p ++ t.
Proof.
  intros p. unfold strip_git. destruct (Py.endswith ".git" p).
  - exists (skipn (length p - 4) p). symmetry. apply firstn_skipn.
  - exists []. symmetry. apply app_nil_r.
Qed.

Lemma filter_noop_mem :
  forall b s, Py.mem b s = false -> filter (fun c => negb (Ascii.eqb b c)) s = s.
Proof.
  intros b s. induction s as [|c s IH]; cbn [filter]; intros H; [reflexivity|].
  rewrite mem_cons in H. apply orb_false_iff in H as [Hc Hs].
  rewrite Hc. cbn [negb]. f_equal. exact (IH Hs).
Qed.

Lemma remove_unsafe_noop :
  forall s, (forall b, In b unsafe_url_bytes -> Py.mem b s = false) ->
    remove_unsafe s = s.
Proof.
  intros s H. unfold remove_unsafe, unsafe_url_bytes in *. cbn [fold_left].
  rewrite !replace_char_filter.
  rewrite (filter_noop_mem _ s) by (apply H; cbn; auto).
  rewrite (filter_noop_mem _ s) by (apply H; cbn; auto).
  apply filter_noop_mem. apply H. cbn; auto.
Qed.

Lemma scheme_char_lower :
  forall c, scheme_char c = true -> scheme_char (Py.lower_char c) = true.
Proof.
  intros [[] [] [] [] [] [] [] []]; vm_compute; congruence.
Qed.

Lemma alpha_lower :
  forall c, Py.is_ascii_alpha c = true -> Py.is_ascii_alpha (Py.lower_char c) = true.
Proof.
  intros [[] [] [] [] [] [] [] []]; vm_compute; congruence.
Qed.

Lemma alpha_not_c0 :
  forall c, Py.is_ascii_alpha c = true -> c0_control_or_space c = false.
Proof.
  intros [[] [] [] [] [] [] [] []]; vm_compute; congruence.
Qed.

Lemma forallb_scheme_lower :
  forall s, forallb scheme_char s = true -> forallb scheme_char (Py.lower s) = true.
Proof.
  induction s as [|c s IH]; cbn [forallb Py.lower map]; intros H; [reflexivity|].
  apply andb_true_iff in H as [Hc Hs].
  rewrite (scheme_char_lower _ Hc). exact (IH Hs).
Qed.

Lemma firstn_length_app :
  forall (a b : str), firstn (length a) (a ++ b) = a.
Proof.
  intros a b. rewrite firstn_app, Nat.sub_diag, firstn_all. cbn [firstn].
  apply app_nil_r.
Qed.

(** A prefix of a lower-case string is in lower case. *)
Lemma lower_prefix_fixed :
  forall x t y, x ++ t = Py.lower y -> Py.lower x = x.
Proof.
  intros x t y H.
  assert (E : Py.lower x ++ Py.lower t = x ++ t)
    by (rewrite <- lower_app, H; apply lower_idem).
  transitivity (firstn (length (Py.lower x)) (Py.lower x ++ Py.lower t)).
  - symmetry. apply firstn_length_app.
  - rewrite E. unfold Py.lower. rewrite length_map. apply firstn_length_app.
Qed.

Lemma empty_or_starts_lower :
  forall s, empty_or_starts "/" s -> empty_or_starts "/" (Py.lower s).
Proof.
  intros s [-> | [r ->]]; [left; reflexivity|].
  right. exists (Py.lower r). reflexivity.
Qed.

Lemma canonical_path_starts :
  forall u, empty_or_starts "/" (path u) -> empty_or_starts "/" (canonical_path u).
Proof.
  intros u H. unfold canonical_path, canonical_of. cbn [path].
  destruct (rstrip_prefix "/" (path u)) as [t Ht]. rewrite Ht in H.
  apply empty_or_starts_prefix in H.
  set (x := if on_github u then _ else _).
  assert (Hx : empty_or_starts "/" x).
  { unfold x. destruct (on_github u); [apply empty_or_starts_lower|]; exact H. }
  destruct (strip_git_prefix x) as [t' Ht']. rewrite Ht' in Hx.
  exact (empty_or_starts_prefix _ _ _ Hx).
Qed.

Lemma canonical_path_mem :
  forall u c, Py.is_ascii_alpha c = false ->
    Py.mem c (path u) = false -> Py.mem c (canonical_path u) = false.
Proof.
  intros u c Hc H. unfold canonical_path, canonical_of. cbn [path].
  assert (Hr : Py.mem c (Py.rstrip "/" (path u)) = false).
  { destruct (rstrip_prefix "/" (path u)) as [t Ht].
    apply (infix_mem c _ (path u)); [|exact H].
    rewrite Ht at 2. apply infix_prefix. }
  set (x := if on_github u then _ else _).
  assert (Hx : Py.mem c x = false).
  { unfold x. destruct (on_github u); [rewrite mem_lower by exact Hc|]; exact Hr. }
  destruct (strip_git_prefix x) as [t' Ht'].
  apply (infix_mem c _ x); [|exact Hx].
  rewrite Ht' at 2. apply infix_prefix.
Qed.

Lemma canonical_path_lower :
  forall u, on_github u = true -> Py.lower (canonical_path u) = canonical_path u.
Proof.
  intros u H. unfold canonical_path, canonical_of. cbn [path]. rewrite H.
  destruct (strip_git_prefix (Py.lower (Py.rstrip "/" (path u)))) as [t Ht].
  symmetry in Ht. exact (lower_prefix_fixed _ _ _ Ht).
Qed.

(** [geturl] of a result with an authority and no params, query or
    fragment. *)
Lemma geturl_authority :
  forall sch net p,
    net <> [] -> empty_or_starts "/" p ->
    geturl (mkParseResult sch net p None None None) =
    match sch with
    | [] => "//" ++ net ++ p
    | _ => sch ++ ":" ++ "//" ++ net ++ p
    end.
Proof.
  intros sch net p Hn Hp. unfold geturl, urlunsplit.
  cbn [params query fragment scheme netloc path truthy].
  destruct net as [|n net]; [contradiction|]. cbn [length Nat.eqb negb orb].
  assert (E : match p with
              | [] => p
              | c :: _ => if Ascii.eqb c "/" then p else "/" ++ p
              end = p).
  { destruct Hp as [-> | [r ->]]; [reflexivity|].
    rewrite Ascii.eqb_refl. reflexivity. }
  rewrite E. destruct sch; reflexivity.
Qed.

(** Parsing what [geturl] assembles from a scheme, an authority and a path
    gives these three back. *)
Lemma urlparse_assembled :
  forall sch net p,
    (sch = []
     \/ exists c pre, sch = c :: pre /\ Py.is_ascii_alpha c = true
                      /\ forallb scheme_char sch = true /\ Py.lower sch = sch) ->
    (forall b, In b unsafe_url_bytes ->
       Py.mem b sch = false /\ Py.mem b net = false /\ Py.mem b p = false) ->
    Py.mem "/" net = false -> Py.mem "?" net = false -> Py.mem "#" net = false ->
    unbalanced_brackets net = false ->
    empty_or_starts "/" p ->
    Py.mem "?" p = false -> Py.mem "#" p = false ->
    in_list sch uses_params && Py.mem ";" p = false ->
    urlparse (match sch with
              | [] => "//" ++ net ++ p
              | _ => sch ++ ":" ++ "//" ++ net ++ p
              end)
    = Ok (mkParseResult sch net p (Some []) (Some []) (Some [])).
Proof.
  intros sch net p Hsch Hclean N1 N2 N3 Nb Hp Pq Pf Hparams.
  set (s := match sch with [] => _ | _ => _ end).
  assert (Hs : s = "//" ++ net ++ p /\ sch = []
               \/ exists c pre, s = (c :: pre) ++ ":"%char :: "//" ++ net ++ p
                                /\ sch = c :: pre
                                /\ Py.is_ascii_alpha c = true
                                /\ forallb scheme_char sch = true
                                /\ Py.lower sch = sch).
  { destruct Hsch as [-> | (c & pre & -> & H)]; [left; split; reflexivity|].
    right. exists c, pre. split; [reflexivity | split; [reflexivity | exact H]]. }
  assert (Hcl : clean_url s = s).
  { unfold clean_url.
    assert (Hd : Py.dropwhile c0_control_or_space s = s).
    { destruct Hs as [[-> _] | (c & pre & -> & _ & Ha & _)]; cbn.
      - reflexivity.
      - rewrite (alpha_not_c0 _ Ha). reflexivity. }
    rewrite Hd. apply remove_unsafe_noop. intros b Hb.
    destruct (Hclean b Hb) as (C1 & C2 & C3).
    assert (Hb' : Py.mem b ":" = false /\ Py.mem b "//" = false)
      by (destruct Hb as [<- | [<- | [<- | []]]]; split; reflexivity).
    destruct Hb' as [Hb1 Hb2].
    destruct Hs as [[-> _] | (c & pre & -> & -> & _)].
    - rewrite !mem_app, Hb2, C2, C3. reflexivity.
    - change (":"%char :: "//" ++ net ++ p) with (":" ++ "//" ++ net ++ p).
      rewrite !mem_app, C1, Hb1, Hb2, C2, C3. reflexivity. }
  assert (Hsplit : urlsplit s = Ok (sch, net, p, [], [])).
  { apply (urlsplit_parts s sch ("//" ++ net ++ p) net p p).
    - rewrite Hcl.
      destruct Hs as [[-> ->] | (c & pre & -> & -> & Ha & Hf & Hl)].
      + apply split_scheme_none. reflexivity.
      + rewrite <- Hl at 2. apply split_scheme_scheme; assumption.
    - change (Py.startswith "//" ("//" ++ net ++ p)) with true. cbv iota.
      change ("//" ++ net ++ p) with ("/"%char :: "/"%char :: net ++ p).
      rewrite splitnetloc_span. apply span_authority_app; assumption.
    - exact Nb.
    - apply split_at_noop. exact Pf.
    - apply split_at_noop. exact Pq. }
  unfold urlparse. rewrite Hsplit, Hparams. reflexivity.
Qed.

(** C2, as the code has it.  Canonicalising the string form of a canonical
    URL gives the same canonical URL whenever that URL has a host, its path
    ends neither in a slash nor in [.git] and carries no parameter
    separator that the second parse would split off, and its string form
    does not contain the text [git+https://] that the first step
    rewrites. *)
Theorem C2_idempotent_on_settled_forms :
  forall (u : str) (r : ParseResult),
    canonical_url u = Ok r ->
    netloc r <> [] ->
    Py.endswith "/" (path r) = false ->
    Py.endswith ".git" (path r) = false ->
    in_list (scheme r) uses_params && Py.mem ";" (path r) = false ->
    Py.replace "git+https://" "https://" (geturl r) = geturl r ->
    canonical_url (geturl r) = Ok r.
Proof.
  intros u r H Hn He Hg Hpar Hrep.
  rewrite canonical_url_eq in H.
  destruct (urlparse (Py.replace "git+https://" "https://" u)) as [pu|] eqn:Hp;
    [|discriminate].
  injection H as <-.
  pose proof (urlparse_wf _ _ Hp) as (Hs & (N1 & N2 & N3 & Nb) & (Pq & Pf) & Hin & Hip & Ha).
  pose proof (clean_url_clean (Py.replace "git+https://" "https://" u)) as Hclean.
  set (clean := clean_url _) in *.
  change (path (canonical_of pu)) with (canonical_path pu) in *.
  change (netloc (canonical_of pu)) with (netloc pu) in *.
  set (sch' := scheme (canonical_of pu)) in *.
  assert (Hform : canonical_of pu =
                  mkParseResult sch' (netloc pu) (canonical_path pu) None None None)
    by reflexivity.
  assert (Hstart : empty_or_starts "/" (canonical_path pu))
    by (apply canonical_path_starts, Ha, Hn).
  assert (Hsch : sch' = []
            \/ exists c pre, sch' = c :: pre /\ Py.is_ascii_alpha c = true
                 /\ forallb scheme_char sch' = true /\ Py.lower sch' = sch').
  { unfold sch', canonical_of. cbn [scheme]. destruct (on_github pu).
    - right. exists "h"%char, "ttps". repeat apply conj; reflexivity.
    - destruct Hs as [-> | (c & pre & -> & Hc & Hf & _)]; [left; reflexivity|].
      right. exists (Py.lower_char c), (Py.lower pre).
      split; [reflexivity|]. split; [apply alpha_lower, Hc|].
      split; [apply forallb_scheme_lower, Hf | apply lower_idem]. }
  assert (Hcl : forall b, In b unsafe_url_bytes ->
             Py.mem b sch' = false /\ Py.mem b (netloc pu) = false
             /\ Py.mem b (canonical_path pu) = false).
  { intros b Hb. pose proof (unsafe_not_alpha b Hb) as Hna.
    split; [|split].
    - unfold sch', canonical_of. cbn [scheme]. destruct (on_github pu).
      + destruct Hb as [<- | [<- | [<- | []]]]; reflexivity.
      + destruct Hs as [-> | (c & pre & -> & _ & _ & Hi)]; [reflexivity|].
        rewrite mem_lower by exact Hna.
        exact (infix_mem b _ _ Hi (Hclean b Hb)).
    - exact (infix_mem b _ _ Hin (Hclean b Hb)).
    - apply canonical_path_mem; [exact Hna|].
      exact (infix_mem b _ _ Hip (Hclean b Hb)). }
  assert (Hscheme : (if on_github pu then "https" else sch') = sch').
  { unfold sch', canonical_of. cbn [scheme]. destruct (on_github pu); reflexivity. }
  clearbody sch'.
  rewrite canonical_url_eq, Hrep, Hform.
  rewrite (geturl_authority sch' (netloc pu) (canonical_path pu) Hn Hstart).
  rewrite (urlparse_assembled sch' (netloc pu) (canonical_path pu)
             Hsch Hcl N1 N2 N3 Nb Hstart
             (canonical_path_mem pu "?" eq_refl Pq)
             (canonical_path_mem pu "#" eq_refl Pf) Hpar).
  f_equal. unfold canonical_of at 1.
  change (on_github (mkParseResult sch' (netloc pu) (canonical_path pu)
                       (Some []) (Some []) (Some [])))
    with (on_github pu).
  cbn [scheme netloc path].
  rewrite (rstrip_noop _ He).
  assert (Hpath : strip_git (if on_github pu then Py.lower (canonical_path pu)
                             else canonical_path pu) = canonical_path pu).
  { destruct (on_github pu) eqn:G.
    - rewrite (canonical_path_lower pu G). unfold strip_git. rewrite Hg. reflexivity.
    - unfold strip_git. rewrite Hg. reflexivity. }
  rewrite Hpath. f_equal. exact Hscheme.
Qed.









(** C2 at the canonical form of a github.com source. *)
Lemma C2_witness :
  canonical_url
    (geturl (mkParseResult "https" "github.com" "/org/repo" None None None))
  = Ok (mkParseResult "https" "github.com" "/org/repo" None None None).
Proof.
  apply (C2_idempotent_on_settled_forms
           "git+https://github.com/Org/Repo/?rev=1#abc");
    [reflexivity | discriminate | reflexivity | reflexivity | reflexivity
     | reflexivity].
Defined.

(** A path that ends in [.git.git] loses one suffix per pass. *)
Lemma C2_counterexample :
  canonical_url "https://github.com/o/r.git.git"
    = Ok (mkParseResult "https" "github.com" "/o/r.git" None None None)
  /\ geturl (mkParseResult "https" "github.com" "/o/r.git" None None None)
     = "https://github.com/o/r.git"
  /\ canonical_url "https://github.com/o/r.git"
     = Ok (mkParseResult "https" "github.com" "/o/r" None None None).
Proof.
  repeat split; reflexivity.
Qed.

(** *** The key of a redirect entry *)

Lemma vcs_head_facts :
  forall c, vcs_head c ->
    Py.lower_char c = c /\ c0_control_or_space c = false
    /\ (forall b, In b unsafe_url_bytes -> Ascii.eqb b c = false)
    /\ Py.mem c "/?#;." = false.
Proof.
  intros c [-> | ->]; repeat apply conj; try reflexivity;
    intros b [<- | [<- | [<- | []]]]; reflexivity.
Qed.

Lemma replace_git_head :
  forall s, Py.startswith "git+" s = true ->
    exists c x, Py.replace "git+https://" "https://" s = c :: x /\ vcs_head c.
Proof.
  intros s H. apply startswith_app in H as [t ->].
  unfold Py.replace. cbn [app Py.replace_from].
  destruct (Py.startswith "git+https://" _).
  - eexists _, _. split; [reflexivity | right; reflexivity].
  - eexists _, _. split; [reflexivity | left; reflexivity].
Qed.

Lemma clean_url_head :
  forall c x, vcs_head c -> exists x', clean_url (c :: x) = c :: x'.
Proof.
  intros c x Hc. destruct (vcs_head_facts c Hc) as (_ & H0 & Hu & _).
  unfold clean_url. cbn [Py.dropwhile]. rewrite H0.
  unfold remove_unsafe, unsafe_url_bytes. cbn [fold_left].
  rewrite !replace_char_filter. cbn [filter].
  rewrite !Hu by (cbn; auto). cbn [negb filter].
  rewrite !Hu by (cbn; auto). cbn [negb filter].
  rewrite !Hu by (cbn; auto). cbn [negb].
  eexists. reflexivity.
Qed.

Lemma split_at_head :
  forall d c x, Ascii.eqb c d = false ->
    exists a, fst (split_at d (c :: x)) = c :: a.
Proof.
  intros d c x H. unfold split_at, Py.partition. cbn [Py.find]. rewrite H.
  destruct (Py.find d x); cbn [option_map fst firstn]; eexists; reflexivity.
Qed.

Lemma splitparams_head :
  forall c x, Ascii.eqb c ";" = false ->
    exists a, fst (_splitparams (c :: x)) = c :: a.
Proof.
  intros c x H. unfold _splitparams.
  assert (Hfind : forall r i, Py.find_from ";" r (c :: x) = Some i ->
                    exists a, firstn i (c :: x) = c :: a).
  { intros r i Hi. unfold Py.find_from in Hi. destruct r as [|r].
    - cbn [skipn Py.find] in Hi. rewrite H in Hi.
      destruct (Py.find ";" x); [|discriminate].
      injection Hi as <-. cbn [firstn]. eexists. reflexivity.
    - destruct (Py.find ";" (skipn (S r) (c :: x))); [|discriminate].
      injection Hi as <-. cbn [Nat.add firstn]. eexists. reflexivity. }
  destruct (Py.mem "/" (c :: x)).
  - destruct (Py.rfind "/" (c :: x)) as [r|]; [|eexists; reflexivity].
    destruct (Py.find_from ";" r (c :: x)) as [i|] eqn:E;
      [|eexists; reflexivity].
    exact (Hfind r i E).
  - destruct (Py.find ";" (c :: x)) as [i|] eqn:E; [|eexists; reflexivity].
    apply (Hfind 0 i). unfold Py.find_from. cbn [skipn]. rewrite E.
    reflexivity.
Qed.

Lemma strip_git_head :
  forall c x, Ascii.eqb c "." = false -> exists a, strip_git (c :: x) = c :: a.
Proof.
  intros c x H. unfold strip_git.
  destruct (Py.endswith ".git" (c :: x)) eqn:E; [|eexists; reflexivity].
  apply endswith_app in E as [[|c' pre] E].
  - injection E as -> _. discriminate H.
  - injection E as <- ->. exists pre.
    replace (length (c :: pre ++ ".git") - 4) with (length (c :: pre))
      by (cbn [length]; rewrite length_app; cbn [length]; lia).
    exact (firstn_length_app (c :: pre) ".git").
Qed.

Lemma geturl_scheme_head :
  forall a sch net p, exists rest,
    geturl (mkParseResult (a :: sch) net p None None None) = a :: rest.
Proof.
  intros a sch net p. unfold geturl, urlunsplit.
  cbn [params query fragment truthy scheme netloc path length Nat.eqb negb app].
  eexists. reflexivity.
Qed.

(** The head of the parsed URL survives in the scheme or, without a
    scheme, in the path. *)
Lemma urlparse_head :
  forall c x u, vcs_head c -> urlparse (c :: x) = Ok u ->
    (exists sch, scheme u = c :: sch)
    \/ (scheme u = [] /\ netloc u = [] /\ exists y, path u = c :: y).
Proof.
  intros c x u Hc H. destruct (vcs_head_facts c Hc) as (Hl & _ & _ & Hm).
  cbn [Py.mem existsb] in Hm. rewrite !(Ascii.eqb_sym c) in *.
  apply orb_false_iff in Hm as [M1 Hm]. apply orb_false_iff in Hm as [M2 Hm].
  apply orb_false_iff in Hm as [M3 Hm]. apply orb_false_iff in Hm as [M4 Hm].
  apply orb_false_iff in Hm as [M5 _].
  unfold urlparse in H.
  destruct (urlsplit (c :: x)) as [[[[[sch net] path0] q] f]|] eqn:Hs;
    [|discriminate].
  apply urlsplit_inv in Hs as (rest1 & rest2 & a1 & Hsch & Hnet & _ & Hf & Hq).
  destruct (clean_url_head c x Hc) as [x' Hx]. rewrite Hx in Hsch.
  apply split_scheme_inv in Hsch as [[-> ->] | (c' & pre & E & -> & _)].
  - right.
    assert (Hn : Py.startswith "//" (c :: x') = false).
    { cbn [Py.startswith]. rewrite M1. reflexivity. }
    rewrite Hn in Hnet. injection Hnet as <- <-.
    destruct (split_at_head "#" c x' (eqb_sym_false _ _ M3)) as [b1 Hb1].
    rewrite Hf in Hb1. cbn [fst] in Hb1. subst a1.
    destruct (split_at_head "?" c b1 (eqb_sym_false _ _ M2)) as [b2 Hb2].
    rewrite Hq in Hb2. cbn [fst] in Hb2. subst path0.
    destruct (in_list [] uses_params && Py.mem ";" (c :: b2)).
    + destruct (splitparams_head c b2 (eqb_sym_false _ _ M4)) as [b3 Hb3].
      destruct (_splitparams (c :: b2)) as [p' pr']. cbn [fst] in Hb3. subst p'.
      injection H as <-. cbn [scheme netloc path]. eauto.
    + injection H as <-. cbn [scheme netloc path]. eauto.
  - left. injection E as <- _.
    destruct (if in_list _ uses_params && _ then _ else _) as [p' pr'].
    injection H as <-. cbn [scheme Py.lower map]. rewrite Hl. eauto.
Qed.

(** The string form of the canonical URL of a [git+...] source starts with
    [g] or [h]. *)
Lemma canonical_git_head :
  forall s c0,
    Py.startswith "git+" s = true -> canonical_url s = Ok c0 ->
    exists c rest, geturl c0 = c :: rest /\ vcs_head c.
Proof.
  intros s c0 Hs H. rewrite canonical_url_eq in H.
  destruct (replace_git_head s Hs) as (c & x & Hr & Hc). rewrite Hr in H.
  destruct (urlparse (c :: x)) as [u|] eqn:Hu; [|discriminate].
  injection H as <-.
  destruct (vcs_head_facts c Hc) as (_ & _ & _ & Hm).
  cbn [Py.mem existsb] in Hm. rewrite !(Ascii.eqb_sym c) in *.
  apply orb_false_iff in Hm as [M1 Hm]. apply orb_false_iff in Hm as [_ Hm].
  apply orb_false_iff in Hm as [_ Hm]. apply orb_false_iff in Hm as [_ Hm].
  apply orb_false_iff in Hm as [M5 _].
  destruct (urlparse_head c x u Hc Hu) as [[sch Hsch] | (Hsch & Hnet & y & Hp)].
  - unfold canonical_of. rewrite Hsch. destruct (on_github u).
    + destruct (geturl_scheme_head "h" "ttps" (netloc u)
                  (strip_git (Py.lower (Py.rstrip "/" (path u))))) as [rest Hg].
      exists "h"%char, rest. split; [exact Hg | right; reflexivity].
    + destruct (geturl_scheme_head c sch (netloc u)
                  (strip_git (Py.rstrip "/" (path u)))) as [rest Hg].
      exists c, rest. split; [exact Hg | exact Hc].
  - unfold canonical_of, on_github. rewrite Hsch, Hnet, Hp.
    destruct (str_eq_dec [] "github.com") as [E|_]; [discriminate E|].
    rewrite rstrip_cons
      by (cbn [Py.mem existsb]; rewrite (eqb_sym_false _ _ M1); reflexivity).
    destruct (strip_git_head c (Py.rstrip "/" y) (eqb_sym_false _ _ M5))
      as [a Ha].
    rewrite Ha. exists c, a. split; [reflexivity | exact Hc].
Qed.

(** C9. In tarball mode the URL is chosen by the host of the canonical
    URL: the codeload path for github.com, the repository archive with a
    [ref] query for a host whose first label is [gitlab], the [get] path
    for bitbucket.org, and a [ValueError] for any other host. *)
Theorem C9_tarball_url_by_host :
  forall (repo_url commit : str) (url : ParseResult) (owner p1 host : str),
    canonical_url repo_url = Ok url ->
    tl (Py.split "/" (path url)) = [owner; p1] ->
    hostname url = Some host ->
    let repo := if Py.endswith ".git" p1 then Py.replace ".git" "" p1 else p1 in
    (host = "github.com" ->
     get_git_tarball repo_url commit =
       Ok ("https://codeload.github.com/" ++ owner ++ "/" ++ repo
             ++ "/tar.gz/" ++ commit))
    /\ (hd [] (Py.split "." host) = "gitlab" ->
        get_git_tarball repo_url commit =
          Ok ("https://" ++ host ++ "/" ++ owner ++ "/" ++ repo
                ++ "/repository/archive.tar.gz?ref=" ++ commit))
    /\ (host = "bitbucket.org" ->
        get_git_tarball repo_url commit =
          Ok ("https://" ++ host ++ "/" ++ owner ++ "/" ++ repo
                ++ "/get/" ++ commit ++ ".tar.gz"))
    /\ (host <> "github.com" ->
        hd [] (Py.split "." host) <> "gitlab" ->
        host <> "bitbucket.org" ->
        get_git_tarball repo_url commit =
          Raise (ValueError ("Don't know how to get tarball for " ++ repo_url))).
Proof.
  intros repo_url commit url owner p1 host Hc Hp Hh repo.
  unfold get_git_tarball. rewrite Hc, Hp, Hh. fold repo.
  repeat split.
  - intros ->. reflexivity.
  - intros Hl. destruct (str_eq_dec host "github.com") as [->|_].
    + discriminate Hl.
    + destruct (str_eq_dec _ "gitlab") as [_|n]; [reflexivity | contradiction].
  - intros ->. reflexivity.
  - intros H1 H2 H3.
    destruct (str_eq_dec host "github.com"); [contradiction|].
    destruct (str_eq_dec _ "gitlab"); [contradiction|].
    destruct (str_eq_dec host "bitbucket.org"); [contradiction|].
    reflexivity.
Qed.

(** *** The effect monad *)

Lemma bind_Ok_inv :
  forall (A B : Type) (m : M A) (k : A -> M B) t b,
    bind m k = (t, Ok b) ->
    exists t1 a t2, m = (t1, Ok a) /\ k a = (t2, Ok b) /\ t = t1 ++ t2.
Proof.
  intros A B [t1 [a|e]] k t b H; unfold bind in H.
  - destruct (k a) as [t2 r] eqn:Hk. inversion H; subst.
    exists t1, a, t2. auto.
  - discriminate.
Qed.

Lemma assert_Ok_inv :
  forall cond msg t (x : unit),
    assert_ cond msg = (t, Ok x) -> cond = true /\ t = [].
Proof.
  intros [] msg t x H; unfold assert_, ret, raise in H.
  - inversion H. auto.
  - discriminate.
Qed.

Lemma lift_Ok_inv :
  forall (A : Type) (r : result A) t a,
    lift r = (t, Ok a) -> r = Ok a /\ t = [].
Proof.
  intros A r t a H. unfold lift in H. inversion H. auto.
Qed.

Lemma ret_inv :
  forall (A : Type) (a b : A) t, ret a = (t, Ok b) -> a = b /\ t = [].
Proof.
  intros A a b t H. unfold ret in H. inversion H. auto.
Qed.

Lemma bind_ret_l :
  forall (A B : Type) (a : A) (k : A -> M B), bind ([], Ok a) k = k a.
Proof.
  intros A B a k. unfold bind. destruct (k a). reflexivity.
Qed.

Ltac bind_inv H :=
  let t1 := fresh "t" in
  let a := fresh "a" in
  let t2 := fresh "t" in
  let H1 := fresh "Hm" in
  let Ht := fresh "Ht" in
  apply bind_Ok_inv in H;
  destruct H as (t1 & a & t2 & H1 & H & Ht).

(** *** Dictionaries *)

Lemma dict_get_set_other :
  forall (V : Type) (k k' : str) (v : V) (d : dict V),
    k <> k' -> dict_get k' (dict_set k v d) = dict_get k' d.
Proof.
  intros V k k' v d Hne. induction d as [|[k0 v0] d IH]; cbn [dict_set dict_get].
  - destruct (str_eq_dec k' k) as [E|_]; [congruence | reflexivity].
  - destruct (str_eq_dec k k0) as [<-|_]; cbn [dict_get].
    + destruct (str_eq_dec k' k) as [E|_]; [congruence | reflexivity].
    + rewrite IH. reflexivity.
Qed.

Lemma gather_Ok_inv :
  forall (A : Type) (coros : list (M A)) t rs,
    gather coros = (t, Ok rs) ->
    Forall2 (fun m r => exists t', m = (t', Ok r)) coros rs.
Proof.
  intros A coros. induction coros as [|c cs IH]; intros t rs H; cbn [gather] in H.
  - apply ret_inv in H as [<- _]. constructor.
  - bind_inv H. bind_inv H. apply ret_inv in H as [<- _].
    constructor; [eauto | exact (IH _ _ Hm0)].
Qed.

Section ResolverProperties.

Variable remote_sha256 : str -> option str.
Variable git_repo : str -> str -> option checkout.
Variable toml_dumps : value -> str.

(** [get_package_sources] reads nothing of the lock file but its
    [metadata] table. *)
Lemma get_package_sources_metadata :
  forall (p : package) (l1 l2 : lockfile) (tarball : bool),
    metadata l1 = metadata l2 ->
    get_package_sources remote_sha256 git_repo p l1 tarball =
    get_package_sources remote_sha256 git_repo p l2 tarball.
Proof.
  intros p l1 l2 tarball H. unfold get_package_sources. rewrite H. reflexivity.
Qed.

(** What the registry branch of [get_package_sources] returns for the
    checksum [c]. *)
Lemma get_package_sources_registry :
  forall (lock : lockfile) (p : package) (s : str) (tarball : bool) (c : str),
    source p = Some s ->
    Py.startswith "git+" s = false ->
    known_checksum lock p s = Some c ->
    get_package_sources remote_sha256 git_repo p lock tarball =
      ([], Ok (Some (registry_descriptors p c, registry_redirect))).
Proof.
  intros lock p s tarball c Hsrc Hgit Hsum.
  unfold get_package_sources.
  rewrite Hsrc, Hgit.
  unfold known_checksum, metadata_checksum, registry_key in Hsum.
  destruct (metadata lock) as [md|].
  - destruct (dict_get _ md) as [c'|] eqn:Hmd.
    + injection Hsum as ->. reflexivity.
    + rewrite Hsum. reflexivity.
  - rewrite Hsum. reflexivity.
Qed.


(** C6. A registry entry with a known checksum resolves, without any
    download, to exactly two descriptors: the [.crate] file of
    static.crates.io with the lock file's checksum as its [sha256], then the
    [.cargo-checksum.json] marker under [cargo/vendor/<name>-<version>]
    whose content is the percent-encoded JSON object recording that
    checksum and an empty [files] map. *)
Theorem C6_registry_entry_descriptors :
  forall (lock : lockfile) (p : package) (s : str) (tarball : bool) (c : str),
    source p = Some s ->
    Py.startswith "git+" s = false ->
    known_checksum lock p s = Some c ->
    get_package_sources remote_sha256 git_repo p lock tarball =
      ([],
       Ok (Some
             ([[("type", VStr "file");
                ("url", VStr ("https://static.crates.io/crates/" ++ name p
                                ++ "/" ++ name p ++ "-" ++ version p ++ ".crate"));
                ("sha256", VStr c);
                ("dest", VStr "cargo/vendor");
                ("dest-filename", VStr (name p ++ "-" ++ version p ++ ".crate"))];
               [("type", VStr "file");
                ("url", VStr ("data:" ++ quote (Json.dumps
                          (VDict [("package", VStr c); ("files", VDict [])]))));
                ("dest", VStr ("cargo/vendor/" ++ name p ++ "-" ++ version p));
                ("dest-filename", VStr ".cargo-checksum.json")]],
              [("crates-io", VDict [("replace-with", VStr "vendored-sources")])]))).
Proof.
  intros lock p s tarball c Hsrc Hgit Hsum.
  rewrite (get_package_sources_registry lock p s tarball c Hsrc Hgit Hsum).
  reflexivity.
Qed.

(** C3. For a registry entry the checksum of the [metadata] table wins over
    the inline one, the inline one is used when the table has none, and with
    neither the package is skipped with a warning: it adds no descriptor and
    no redirect entry, and a run over the lock file ends as the run without
    that package does. *)
Theorem C3_checksum_precedence_and_skip :
  forall (lock : lockfile) (p : package) (s : str) (tarball : bool),
    source p = Some s ->
    Py.startswith "git+" s = false ->
    match metadata_checksum lock p s, checksum p with
    | Some c, _ | None, Some c =>
        exists archive marker redirect,
          get_package_sources remote_sha256 git_repo p lock tarball =
            ([], Ok (Some ([archive; marker], redirect)))
          /\ dict_get "sha256" archive = Some (VStr c)
    | None, None =>
        get_package_sources remote_sha256 git_repo p lock tarball =
          ([Warning (name p ++ " doesn't have checksum")], Ok None)
        /\ (forall results, merge_results (None :: results) = merge_results results)
        /\ (forall ps,
              generate_sources remote_sha256 git_repo toml_dumps
                (mkLockfile (metadata lock) (Some (p :: ps))) tarball =
              let '(t, r) :=
                generate_sources remote_sha256 git_repo toml_dumps
                  (mkLockfile (metadata lock) (Some ps)) tarball in
              (Warning (name p ++ " doesn't have checksum") :: t, r))
    end.
Proof.
  intros lock p s tarball Hsrc Hgit.
  pose proof (fun c => get_package_sources_registry lock p s tarball c Hsrc Hgit) as Hreg.
  unfold known_checksum in Hreg.
  destruct (metadata_checksum lock p s) as [c|] eqn:Hm.
  - eexists _, _, _. split; [exact (Hreg c eq_refl) | reflexivity].
  - destruct (checksum p) as [c|] eqn:Hc.
    + eexists _, _, _. split; [exact (Hreg c eq_refl) | reflexivity].
    + assert (Hskip : get_package_sources remote_sha256 git_repo p lock tarball =
                ([Warning (name p ++ " doesn't have checksum")], Ok None)).
      { unfold get_package_sources. rewrite Hsrc, Hgit.
        unfold metadata_checksum, registry_key in Hm. rewrite Hm, Hc.
        reflexivity. }
      split; [exact Hskip |].
      split; [reflexivity |].
      intros ps. unfold generate_sources. cbn [packages map gather].
      rewrite (get_package_sources_metadata p
                 (mkLockfile (metadata lock) (Some (p :: ps))) lock tarball
                 eq_refl), Hskip.
      rewrite (map_ext _ _
                 (fun q => get_package_sources_metadata q
                    (mkLockfile (metadata lock) (Some (p :: ps)))
                    (mkLockfile (metadata lock) (Some ps)) tarball eq_refl)).
      destruct (gather _) as [t [results|e]]; unfold bind, ret.
      * change (merge_results (None :: results)) with (merge_results results).
        destruct (merge_results results) as [sources cvs].
        cbn [app]. rewrite !app_nil_r. reflexivity.
      * reflexivity.
Qed.

(** The shape of a successful [get_git_sources]. *)
Lemma get_git_sources_inv :
  forall (p : package) (tarball : bool) t srcs entry,
    get_git_sources remote_sha256 git_repo p tarball = (t, Ok (srcs, entry)) ->
    exists s u canonical sel primary t' pkgs sub,
      source p = Some s
      /\ urlparse s = Ok u
      /\ canonical_url s = Ok canonical
      /\ fragment_of u <> []
      /\ get_git_cargo_packages git_repo (geturl canonical) (fragment_of u)
           = (t', Ok pkgs)
      /\ dict_get (name p) pkgs = Some sub
      /\ type_of primary = Some (VStr (if tarball then "archive" else "git"))
      /\ srcs = primary
                  :: (if str_eq_dec sub "." then []
                      else [relocation (name p) sub])
                  ++ [checksum_marker VNone ("cargo/vendor/" ++ name p)]
      /\ entry = [(geturl canonical,
                   VDict ([("git", VStr (geturl canonical));
                           ("replace-with", VStr "vendored-sources")] ++ sel))]
      /\ match chosen_selector (query_of u) with
         | Some (k, vs) => exists v, vs = [v] /\ sel = [(k, VStr v)]
         | None => sel = []
         end.
Proof.
  intros p tarball t srcs entry H.
  unfold get_git_sources in H.
  destruct (source p) as [s|] eqn:Hs; [|discriminate].
  bind_inv H. apply lift_Ok_inv in Hm as [Hu _]. rename a into u.
  bind_inv H. apply assert_Ok_inv in Hm as [Hc _].
  bind_inv H. apply lift_Ok_inv in Hm as [Hcan _]. rename a0 into canonical.
  bind_inv H. rename a0 into e, Hm into Hsel.
  bind_inv H. rename a0 into git_sources, Hm into Hprim.
  bind_inv H. rename a0 into pkgs, Hm into Hpk.
  destruct (dict_get (name p) pkgs) as [sub|] eqn:Hsub; [|discriminate].
  apply ret_inv in H as [H _]. inversion H; subst srcs entry; clear H.
  assert (Hsel' : exists sel,
             e = [("git", VStr (geturl canonical));
                  ("replace-with", VStr "vendored-sources")] ++ sel
             /\ match chosen_selector (query_of u) with
                | Some (k, vs) => exists v, vs = [v] /\ sel = [(k, VStr v)]
                | None => sel = []
                end).
  { unfold chosen_selector.
    destruct (parse_qs_get (query_of u) "rev") as [vs|].
    { bind_inv Hsel. apply assert_Ok_inv in Hm as [Hl _].
      apply Nat.eqb_eq in Hl. destruct vs as [|v [|]]; try discriminate.
      apply ret_inv in Hsel as [<- _]. eexists. split; [reflexivity|].
      exists v. split; reflexivity. }
    destruct (parse_qs_get (query_of u) "tag") as [vs|].
    { bind_inv Hsel. apply assert_Ok_inv in Hm as [Hl _].
      apply Nat.eqb_eq in Hl. destruct vs as [|v [|]]; try discriminate.
      apply ret_inv in Hsel as [<- _]. eexists. split; [reflexivity|].
      exists v. split; reflexivity. }
    destruct (parse_qs_get (query_of u) "branch") as [vs|].
    { bind_inv Hsel. apply assert_Ok_inv in Hm as [Hl _].
      apply Nat.eqb_eq in Hl. destruct vs as [|v [|]]; try discriminate.
      apply ret_inv in Hsel as [<- _]. eexists. split; [reflexivity|].
      exists v. split; reflexivity. }
    apply ret_inv in Hsel as [<- _]. exists []. split; reflexivity. }
  destruct Hsel' as (sel & -> & Hchosen).
  assert (Hprim' : exists primary,
             git_sources = [primary]
             /\ type_of primary = Some (VStr (if tarball then "archive" else "git"))).
  { destruct tarball.
    - bind_inv Hprim. bind_inv Hprim. apply ret_inv in Hprim as [<- _].
      eexists. split; reflexivity.
    - apply ret_inv in Hprim as [<- _]. eexists. split; reflexivity. }
  destruct Hprim' as (primary & -> & Hty).
  exists s, u, canonical, sel, primary. eexists _, pkgs, sub.
  repeat split; eauto.
  - intros E. rewrite E in Hc. discriminate.
  - destruct (str_eq_dec sub "."); reflexivity.
Qed.

(** C4. A source whose fragment is empty names no commit: resolution ends
    with the assertion failure, and no event (no download, no [git] run, not
    even a warning) precedes it, whether [get_git_sources] is called
    directly or reached through [get_package_sources]. *)
Theorem C4_missing_commit_is_fatal :
  forall (lock : lockfile) (p : package) (s : str) (u : ParseResult)
         (tarball : bool),
    source p = Some s ->
    urlparse s = Ok u ->
    fragment_of u = [] ->
    get_git_sources remote_sha256 git_repo p tarball =
      ([], Raise (AssertionError
                    "The commit needs to be indicated in the fragement part"))
    /\ (Py.startswith "git+" s = true ->
        get_package_sources remote_sha256 git_repo p lock tarball =
          ([], Raise (AssertionError
                        "The commit needs to be indicated in the fragement part"))).
Proof.
  intros lock p s u tarball Hs Hu Hf.
  assert (H : get_git_sources remote_sha256 git_repo p tarball =
                ([], Raise (AssertionError
                    "The commit needs to be indicated in the fragement part"))).
  { unfold get_git_sources. rewrite Hs, Hu. unfold lift, bind at 1.
    rewrite Hf. reflexivity. }
  split; [exact H |].
  intros Hgit. unfold get_package_sources. rewrite Hs, Hgit, H. reflexivity.
Qed.

(** C7. When the package sits in a sub-directory of its repository, a
    successful resolution returns three descriptors: the primary fetch
    (archive or git checkout), then the shell step that moves the
    sub-directory into place, then the checksum marker, which is last. *)
Theorem C7_relocation_between_fetch_and_marker :
  forall (p : package) (tarball : bool) (t : list event)
         (srcs : list (dict value)) (entry : dict value) (sub : str),
    get_git_sources remote_sha256 git_repo p tarball = (t, Ok (srcs, entry)) ->
    discovered_subpath git_repo p = Some sub ->
    sub <> "." ->
    exists primary,
      srcs = [primary;
              relocation (name p) sub;
              checksum_marker VNone ("cargo/vendor/" ++ name p)]
      /\ type_of primary = Some (VStr (if tarball then "archive" else "git"))
      /\ type_of (relocation (name p) sub) = Some (VStr "shell")
      /\ dict_get "dest-filename"
           (checksum_marker VNone ("cargo/vendor/" ++ name p))
         = Some (VStr ".cargo-checksum.json")
      /\ last srcs [] = checksum_marker VNone ("cargo/vendor/" ++ name p).
Proof.
  intros p tarball t srcs entry sub H Hsub Hne.
  apply get_git_sources_inv in H.
  destruct H as (s & u & c & sel & primary & t' & pkgs & sub' &
                 Hs & Hu & Hc & _ & Hpk & Hget & Hty & -> & _ & _).
  unfold discovered_subpath in Hsub. rewrite Hs, Hu, Hc, Hpk in Hsub.
  cbn [snd] in Hsub. rewrite Hget in Hsub. injection Hsub as ->.
  exists primary. destruct (str_eq_dec sub ".") as [E|_]; [contradiction|].
  repeat split; auto.
Qed.

(** C8. A successful run ends with the shell step that unpacks every
    [.crate] file in [cargo/vendor], followed by the [cargo/config] file
    whose content is the serialised redirect mapping built from the results
    of the packages. *)
Theorem C8_manifest_ends_with_extraction_and_config :
  forall (lock : lockfile) (tarball : bool) (t : list event)
         (sources : list (dict value)),
    generate_sources remote_sha256 git_repo toml_dumps lock tarball
      = (t, Ok sources) ->
    exists pkgs results front redirects,
      packages lock = Some pkgs
      /\ gather (map (fun p => get_package_sources remote_sha256 git_repo
                                 p lock tarball) pkgs) = (t, Ok results)
      /\ merge_results results = (front, redirects)
      /\ sources =
           front ++
           [[("type", VStr "shell");
             ("dest", VStr "cargo/vendor");
             ("commands", VList [VStr "for c in *.crate; do tar -xf $c; done"])];
            [("type", VStr "file");
             ("url", VStr ("data:" ++ quote (toml_dumps
                        (VDict [("source", VDict redirects)]))));
             ("dest", VStr "cargo");
             ("dest-filename", VStr "config")]].
Proof.
  intros lock tarball t sources H.
  unfold generate_sources in H.
  destruct (packages lock) as [pkgs|]; [|discriminate].
  bind_inv H. rename a into results.
  destruct (merge_results results) as [front redirects] eqn:Hmerge.
  apply ret_inv in H as [<- ->]. rewrite app_nil_r in Ht. subst t0.
  exists pkgs, results, front, redirects.
  repeat split; auto.
  rewrite <- app_assoc. reflexivity.
Qed.


Lemma get_package_sources_foreign :
  forall p lock tarball t r,
    get_package_sources remote_sha256 git_repo p lock tarball = (t, Ok r) ->
    foreign_entry r.
Proof.
  intros p lock tarball t r H. unfold get_package_sources in H.
  destruct (source p) as [s|] eqn:Hs.
  - destruct (Py.startswith "git+" s) eqn:Hg.
    + bind_inv H. apply ret_inv in H as [<- _]. destruct a as [srcs entry].
      apply get_git_sources_inv in Hm.
      destruct Hm as (s' & u & c & sel & primary & t' & pkgs & sub &
                      Hs' & _ & Hc & _ & _ & _ & _ & _ & -> & _).
      rewrite Hs in Hs'. injection Hs' as <-.
      destruct (canonical_git_head s c Hg Hc) as (ch & rest & Hk & Hh).
      cbn [foreign_entry]. eexists _, _. split; [reflexivity|].
      rewrite Hk. destruct Hh as [-> | ->]; discriminate.
    + destruct (match metadata lock with Some _ => _ | None => _ end).
      * apply ret_inv in H as [<- _]. cbn [foreign_entry].
        eexists _, _. split; [reflexivity | discriminate].
      * destruct (checksum p).
        -- apply ret_inv in H as [<- _]. cbn [foreign_entry].
           eexists _, _. split; [reflexivity | discriminate].
        -- bind_inv H. apply ret_inv in H as [<- _]. exact I.
  - bind_inv H. apply ret_inv in H as [<- _]. exact I.
Qed.

Lemma merge_results_redirects :
  forall results, snd (merge_results results) = merged_redirects results.
Proof.
  intros results. unfold merge_results, merged_redirects.
  change [(VENDORED_SOURCES, VDict [("directory", VStr CARGO_CRATES)])]
    with [("vendored-sources", VDict [("directory", VStr "cargo/vendor")])].
  generalize (@nil (dict value)).
  generalize [("vendored-sources", VDict [("directory", VStr "cargo/vendor")])].
  induction results as [|r rs IH]; intros d l; cbn [fold_left].
  - reflexivity.
  - destruct r as [[srcs entry]|]; apply IH.
Qed.

Lemma merged_redirects_vendored :
  forall results, Forall foreign_entry results ->
    dict_get "vendored-sources" (merged_redirects results)
    = Some (VDict [("directory", VStr "cargo/vendor")]).
Proof.
  intros results H. unfold merged_redirects.
  assert (Hinit : dict_get "vendored-sources"
                    [("vendored-sources", VDict [("directory", VStr "cargo/vendor")])]
                  = Some (VDict [("directory", VStr "cargo/vendor")]))
    by reflexivity.
  revert Hinit.
  generalize [("vendored-sources", VDict [("directory", VStr "cargo/vendor")])].
  induction H as [|r rs Hr _ IH]; intros d Hd; cbn [fold_left].
  - exact Hd.
  - apply IH. destruct r as [[srcs entry]|]; [|exact Hd].
    destruct Hr as (k & v & -> & Hk).
    unfold dict_update. cbn [fold_left fst snd].
    rewrite dict_get_set_other by exact Hk. exact Hd.
Qed.

Lemma merged_redirects_skipped :
  forall results, Forall (fun r => r = None) results ->
    merged_redirects results
    = [("vendored-sources", VDict [("directory", VStr "cargo/vendor")])].
Proof.
  intros results H. unfold merged_redirects.
  generalize [("vendored-sources", VDict [("directory", VStr "cargo/vendor")])].
  induction H as [|r rs -> _ IH]; intros d; cbn [fold_left]; [reflexivity|].
  apply IH.
Qed.

(** C10. Whenever a manifest is generated, the redirect mapping serialised
    into its last entry maps [vendored-sources] to the vendor directory;
    the mapping starts from that entry and the entries of the packages are
    merged on top of it.  When every package is skipped the mapping is that
    entry alone, and with no package at all the run succeeds with it. *)
Theorem C10_vendored_sources_entry_is_kept :
  forall (lock : lockfile) (tarball : bool),
    (forall t sources,
       generate_sources remote_sha256 git_repo toml_dumps lock tarball
         = (t, Ok sources) ->
       exists pkgs results,
         packages lock = Some pkgs
         /\ gather (map (fun p => get_package_sources remote_sha256 git_repo
                                    p lock tarball) pkgs) = (t, Ok results)
         /\ last sources [] =
              [("type", VStr "file");
               ("url", VStr ("data:" ++ quote (toml_dumps
                          (VDict [("source", VDict (merged_redirects results))]))));
               ("dest", VStr "cargo");
               ("dest-filename", VStr "config")]
         /\ dict_get "vendored-sources" (merged_redirects results)
            = Some (VDict [("directory", VStr "cargo/vendor")])
         /\ (Forall (fun r => r = None) results ->
             merged_redirects results
             = [("vendored-sources", VDict [("directory", VStr "cargo/vendor")])]))
    /\ generate_sources remote_sha256 git_repo toml_dumps
         (mkLockfile (metadata lock) (Some [])) tarball
       = ([],
          Ok [extract_crates;
              [("type", VStr "file");
               ("url", VStr ("data:" ++ quote (toml_dumps
                          (VDict [("source",
                                   VDict [("vendored-sources",
                                           VDict [("directory",
                                                   VStr "cargo/vendor")])])]))));
               ("dest", VStr "cargo");
               ("dest-filename", VStr "config")]]).
Proof.
  intros lock tarball. split; [|reflexivity].
  intros t sources H. unfold generate_sources in H.
  destruct (packages lock) as [pkgs|]; [|discriminate].
  bind_inv H. rename a into results.
  pose proof (merge_results_redirects results) as Hred.
  destruct (merge_results results) as [front redirects]. cbn [snd] in Hred.
  subst redirects.
  apply ret_inv in H as [<- ->]. rewrite app_nil_r in Ht. subst t0.
  exists pkgs, results. split; [reflexivity|]. split; [exact Hm|].
  split; [apply last_last|].
  split; [|apply merged_redirects_skipped].
  apply merged_redirects_vendored.
  apply gather_Ok_inv in Hm. clear -Hm.
  remember (map _ pkgs) as coros eqn:Hc. revert pkgs Hc.
  induction Hm as [|m r ms rs [t' Hmr] _ IH]; intros pkgs Hc; [constructor|].
  destruct pkgs as [|p ps]; [discriminate|]. cbn [map] in Hc.
  injection Hc as -> ->. constructor.
  - exact (get_package_sources_foreign _ _ _ _ _ Hmr).
  - exact (IH ps eq_refl).
Qed.

End ResolverProperties.

(** * The statements at work

    The theorems above, applied to a small lock file: a crate of the
    registry, a crate that lives in a sub-directory of a git repository, and
    a world in which nothing can be downloaded and every repository is a
    workspace with [foo] under [crates/foo]. *)

(** C3 at a registry crate without any checksum. *)
Lemma C3_witness :
  get_package_sources example_offline example_repo
    (mkPackage "libc" "0.2.0"
       (Some "registry+https://github.com/rust-lang/crates.io-index") None)
    example_lock false
  = ([Warning "libc doesn't have checksum"], Ok None).
Proof.
  exact (proj1 (C3_checksum_precedence_and_skip example_offline example_repo
                  example_toml example_lock
                  (mkPackage "libc" "0.2.0"
                     (Some "registry+https://github.com/rust-lang/crates.io-index")
                     None)
                  "registry+https://github.com/rust-lang/crates.io-index" false
                  eq_refl eq_refl)).
Defined.

(** C4 at a source without a fragment. *)
Lemma C4_witness :
  get_git_sources example_offline example_repo
    (mkPackage "foo" "0.1.0" (Some "git+https://github.com/o/r?rev=abc") None)
    false
  = ([], Raise (AssertionError
                  "The commit needs to be indicated in the fragement part")).
Proof.
  exact (proj1 (C4_missing_commit_is_fatal example_offline example_repo
                  example_lock
                  (mkPackage "foo" "0.1.0"
                     (Some "git+https://github.com/o/r?rev=abc") None)
                  "git+https://github.com/o/r?rev=abc"
                  (mkParseResult "git+https" "github.com" "/o/r"
                     (Some []) (Some "rev=abc") (Some []))
                  false eq_refl eq_refl eq_refl)).
Defined.



(** C6 at the registry crate of the small lock file. *)
Lemma C6_witness :
  get_package_sources example_offline example_repo example_crate example_lock
    false
  = ([], Ok (Some (registry_descriptors example_crate "abc123",
                   registry_redirect))).
Proof.
  exact (C6_registry_entry_descriptors example_offline example_repo
           example_lock example_crate
           "registry+https://github.com/rust-lang/crates.io-index" false
           "abc123" eq_refl eq_refl eq_refl).
Defined.

(** C7 at the crate that lives under [crates/foo]. *)
Lemma C7_witness :
  exists primary,
    [[("type", VStr "git");
      ("url", VStr "https://github.com/o/r");
      ("commit", VStr "deadbee");
      ("dest", VStr "cargo/vendor/foo")];
     relocation "foo" "crates/foo";
     checksum_marker VNone "cargo/vendor/foo"]
    = [primary;
       relocation "foo" "crates/foo";
       checksum_marker VNone "cargo/vendor/foo"]
    /\ type_of primary = Some (VStr "git").
Proof.
  destruct (C7_relocation_between_fetch_and_marker example_offline example_repo
              example_git_crate false
              [GitCheckout "https://github.com/o/r" "deadbee"]
              [[("type", VStr "git");
                ("url", VStr "https://github.com/o/r");
                ("commit", VStr "deadbee");
                ("dest", VStr "cargo/vendor/foo")];
               relocation "foo" "crates/foo";
               checksum_marker VNone "cargo/vendor/foo"]
              [("https://github.com/o/r",
                VDict [("git", VStr "https://github.com/o/r");
                       ("replace-with", VStr "vendored-sources");
                       ("rev", VStr "abc")])]
              "crates/foo")
    as (primary & H1 & H2 & _).
  - vm_compute. reflexivity.
  - vm_compute. reflexivity.
  - discriminate.
  - exists primary. split; [exact H1 | exact H2].
Defined.

(** C8 at the small lock file. *)
Lemma C8_witness :
  exists front redirects,
    manifest_of (generate_sources example_offline example_repo example_toml
                   example_lock false)
    = front ++
      [[("type", VStr "shell");
        ("dest", VStr "cargo/vendor");
        ("commands", VList [VStr "for c in *.crate; do tar -xf $c; done"])];
       [("type", VStr "file");
        ("url", VStr ("data:" ++ quote (example_toml
                   (VDict [("source", VDict redirects)]))));
        ("dest", VStr "cargo");
        ("dest-filename", VStr "config")]].
Proof.
  destruct (C8_manifest_ends_with_extraction_and_config example_offline
              example_repo example_toml example_lock false
              (fst (generate_sources example_offline example_repo example_toml
                      example_lock false))
              (manifest_of (generate_sources example_offline example_repo
                              example_toml example_lock false)))
    as (pkgs & results & front & redirects & _ & _ & _ & H).
  - vm_compute. reflexivity.
  - exists front, redirects. exact H.
Defined.

(** C9 at a GitLab instance. *)
Lemma C9_witness :
  get_git_tarball "git+https://gitlab.gnome.org/GNOME/librsvg.git" "deadbee"
  = Ok "https://gitlab.gnome.org/GNOME/librsvg/repository/archive.tar.gz?ref=deadbee".
Proof.
  exact (proj1 (proj2 (C9_tarball_url_by_host
                         "git+https://gitlab.gnome.org/GNOME/librsvg.git"
                         "deadbee"
                         (mkParseResult "https" "gitlab.gnome.org"
                            "/GNOME/librsvg" None None None)
                         "GNOME" "librsvg" "gitlab.gnome.org"
                         eq_refl eq_refl eq_refl))
           eq_refl).
Defined.

(** C10 at the small lock file. *)
Lemma C10_witness :
  exists results,
    gather (map (fun p => get_package_sources example_offline example_repo
                            p example_lock false)
              [example_crate; example_git_crate])
    = (fst (generate_sources example_offline example_repo example_toml
              example_lock false), Ok results)
    /\ dict_get "vendored-sources" (merged_redirects results)
       = Some (VDict [("directory", VStr "cargo/vendor")]).
Proof.
  destruct (proj1 (C10_vendored_sources_entry_is_kept example_offline
                     example_repo example_toml example_lock false)
              (fst (generate_sources example_offline example_repo example_toml
                      example_lock false))
              (manifest_of (generate_sources example_offline example_repo
                              example_toml example_lock false)))
    as (pkgs & results & Hp & Hg & _ & Hv & _).
  - vm_compute. reflexivity.
  - injection Hp as <-. exists results. split; [exact Hg | exact Hv].
Defined.

(** * Further properties *)

(** ** Dictionaries *)






(** ** The effect monad, continued *)

Lemma bind_lift :
  forall (A B : Type) (r : result A) (k : A -> M B),
    bind (lift r) k = match r with
                      | Ok a => k a
                      | Raise e => ([], Raise e)
                      end.
Proof.
  intros A B [a|e] k; unfold lift; [apply bind_ret_l | reflexivity].
Qed.

Lemma bind_assert :
  forall (B : Type) (c : bool) (msg : str) (k : unit -> M B),
    bind (assert_ c msg) k = if c then k tt else ([], Raise (AssertionError msg)).
Proof.
  intros B [] msg k; unfold assert_, ret, raise; [apply bind_ret_l | reflexivity].
Qed.

Lemma bind_emit :
  forall (B : Type) (e : event) (k : unit -> M B),
    bind (emit e) k = (e :: fst (k tt), snd (k tt)).
Proof.
  intros B e k. unfold bind, emit. destruct (k tt). reflexivity.
Qed.

Lemma bind_Raise :
  forall (A B : Type) (m : M A) (k : A -> M B) e,
    snd m = Raise e -> bind m k = (fst m, Raise e).
Proof.
  intros A B [t r] k e H. cbn [snd] in H. subst r. reflexivity.
Qed.

Lemma bind_Ok :
  forall (A B : Type) (t : list event) (a : A) (k : A -> M B),
    bind (t, Ok a) k = (t ++ fst (k a), snd (k a)).
Proof.
  intros A B t a k. unfold bind. destruct (k a). reflexivity.
Qed.

Lemma bind_ext :
  forall (A B : Type) (m : M A) (k1 k2 : A -> M B),
    (forall a, k1 a = k2 a) -> bind m k1 = bind m k2.
Proof.
  intros A B [t [a|e]] k1 k2 H; unfold bind; [rewrite H|]; reflexivity.
Qed.

Lemma gather_Raise :
  forall (A : Type) (coros : list (M A)) (m : M A) e,
    In m coros -> snd m = Raise e -> exists e', snd (gather coros) = Raise e'.
Proof.
  intros A coros m e. induction coros as [|c cs IH]; intros Hin Hm; [contradiction|].
  cbn [gather]. destruct c as [t [a|e0]].
  - destruct Hin as [<- | Hin]; [cbn in Hm; discriminate Hm|].
    destruct (IH Hin Hm) as [e' He'].
    destruct (gather cs) as [t' [l|e1]]; [cbn in He'; discriminate He'|].
    exists e1. reflexivity.
  - exists e0. reflexivity.
Qed.

(** ** The resolvers, continued *)

Section FurtherResolverProperties.

Variable remote_sha256 : str -> option str.
Variable git_repo : str -> str -> option checkout.
Variable toml_dumps : value -> str.

(** *** [get_git_cargo_packages] *)






(** *** [get_git_sources] *)

(** The three-way choice of the selector, as one pure step. *)
Lemma selector_step :
  forall (u c : ParseResult),
    match parse_qs_get (query_of u) "rev", parse_qs_get (query_of u) "tag",
          parse_qs_get (query_of u) "branch" with
    | Some rev, _, _ =>
        assert_ (length rev =? 1) "" ;;;
        ret (dict_set "rev" (VStr (hd [] rev))
               [("git", VStr (geturl c)); ("replace-with", VStr VENDORED_SOURCES)])
    | None, Some tag, _ =>
        assert_ (length tag =? 1) "" ;;;
        ret (dict_set "tag" (VStr (hd [] tag))
               [("git", VStr (geturl c)); ("replace-with", VStr VENDORED_SOURCES)])
    | None, None, Some branch =>
        assert_ (length branch =? 1) "" ;;;
        ret (dict_set "branch" (VStr (hd [] branch))
               [("git", VStr (geturl c)); ("replace-with", VStr VENDORED_SOURCES)])
    | None, None, None =>
        ret [("git", VStr (geturl c)); ("replace-with", VStr VENDORED_SOURCES)]
    end
    = lift (selector_entry u c).
Proof.
  intros u c. unfold selector_entry, chosen_selector.
  destruct (parse_qs_get (query_of u) "rev") as [[|v [|]]|];
    try reflexivity.
  destruct (parse_qs_get (query_of u) "tag") as [[|v [|]]|];
    try reflexivity.
  destruct (parse_qs_get (query_of u) "branch") as [[|v [|]]|];
    reflexivity.
Qed.

(** [get_git_sources] from its first effect on. *)
Lemma get_git_sources_steps :
  forall (p : package) (tarball : bool) (s : str) (u c : ParseResult)
         (entry : dict value),
    source p = Some s ->
    urlparse s = Ok u ->
    fragment_of u <> [] ->
    canonical_url s = Ok c ->
    selector_entry u c = Ok entry ->
    get_git_sources remote_sha256 git_repo p tarball =
    bind
      (if tarball then
         tarball_url <- lift (get_git_tarball s (fragment_of u)) ;;
         sha256 <- get_remote_sha256 remote_sha256 tarball_url ;;
         ret [archive_descriptor (name p) tarball_url sha256]
       else ret [git_descriptor (name p) (geturl c) (fragment_of u)])
      (fun git_sources =>
         bind (get_git_cargo_packages git_repo (geturl c) (fragment_of u))
           (fun pkgs =>
              match dict_get (name p) pkgs with
              | None => raise (KeyError (name p))
              | Some sub =>
                  ret (git_sources
                         ++ (if str_eq_dec sub "." then []
                             else [relocation (name p) sub])
                         ++ [checksum_marker VNone ("cargo/vendor/" ++ name p)],
                       [(geturl c, VDict entry)])
              end)).
Proof.
  intros p tarball s u c entry Hs Hu Hf Hc He.
  unfold get_git_sources. rewrite Hs, Hu, bind_lift, bind_assert.
  assert (Hfrag : negb (length (fragment_of u) =? 0) = true)
    by (destruct (fragment_of u); [contradiction | reflexivity]).
  rewrite Hfrag, Hc, bind_lift, selector_step, He, bind_lift.
  apply bind_ext. intros git_sources. apply bind_ext. intros pkgs.
  destruct (dict_get (name p) pkgs) as [sub|]; [|reflexivity].
  destruct (str_eq_dec sub "."); [reflexivity|].
  rewrite <- app_assoc. reflexivity.
Qed.

Lemma get_git_cargo_packages_trace :
  forall git_url commit,
    fst (get_git_cargo_packages git_repo git_url commit)
    = [GitCheckout git_url commit].
Proof.
  intros git_url commit. unfold get_git_cargo_packages. rewrite bind_emit.
  cbn [fst]. f_equal.
  destruct (git_repo git_url commit) as [co|]; [|reflexivity].
  rewrite bind_assert. destruct (root_package co), (workspace_members co);
    reflexivity.
Qed.

(** What the tail of [get_git_sources] returns for the primary
    descriptor [primary]. *)
Lemma get_git_sources_tail :
  forall (p : package) (c : ParseResult) (commit : str) (entry : dict value)
         (primary : dict value),
    bind (get_git_cargo_packages git_repo (geturl c) commit)
      (fun pkgs =>
         match dict_get (name p) pkgs with
         | None => raise (KeyError (name p))
         | Some sub =>
             ret ([primary]
                    ++ (if str_eq_dec sub "." then []
                        else [relocation (name p) sub])
                    ++ [checksum_marker VNone ("cargo/vendor/" ++ name p)],
                  [(geturl c, VDict entry)])
         end)
    = ([GitCheckout (geturl c) commit],
       match snd (get_git_cargo_packages git_repo (geturl c) commit) with
       | Raise e => Raise e
       | Ok pkgs =>
           match dict_get (name p) pkgs with
           | None => Raise (KeyError (name p))
           | Some sub =>
               Ok (primary
                     :: (if str_eq_dec sub "." then []
                         else [relocation (name p) sub])
                     ++ [checksum_marker VNone ("cargo/vendor/" ++ name p)],
                   [(geturl c, VDict entry)])
           end
       end).
Proof.
  intros p c commit entry primary.
  pose proof (get_git_cargo_packages_trace (geturl c) commit) as Ht.
  destruct (get_git_cargo_packages git_repo (geturl c) commit) as [t [pkgs|e]];
    cbn [fst snd] in *; subst t; unfold bind; [|reflexivity].
  destruct (dict_get (name p) pkgs); reflexivity.
Qed.

(** X2. In live-checkout mode a source that passes the checks of its URL leads
    to exactly one [git] checkout, of the canonical URL at the commit of the
    fragment, and to no download.  The result is the failure of that
    checkout, a [KeyError] for a package the repository does not declare,
    or the checkout descriptor (whose URL is the key of the redirect
    entry), the relocation step when the package is not at the root, and
    the marker. *)
Theorem live_checkout_outcome :
  forall (p : package) (s : str) (u c : ParseResult) (entry : dict value),
    source p = Some s ->
    urlparse s = Ok u ->
    fragment_of u <> [] ->
    canonical_url s = Ok c ->
    selector_entry u c = Ok entry ->
    get_git_sources remote_sha256 git_repo p false =
    ([GitCheckout (geturl c) (fragment_of u)],
     match snd (get_git_cargo_packages git_repo (geturl c) (fragment_of u)) with
     | Raise e => Raise e
     | Ok pkgs =>
         match dict_get (name p) pkgs with
         | None => Raise (KeyError (name p))
         | Some sub =>
             Ok (git_descriptor (name p) (geturl c) (fragment_of u)
                   :: (if str_eq_dec sub "." then []
                       else [relocation (name p) sub])
                   ++ [checksum_marker VNone ("cargo/vendor/" ++ name p)],
                 [(geturl c, VDict entry)])
         end
     end).
Proof.
  intros p s u c entry Hs Hu Hf Hc He.
  rewrite (get_git_sources_steps p false s u c entry Hs Hu Hf Hc He).
  unfold ret at 1. rewrite bind_ret_l.
  apply get_git_sources_tail.
Qed.

(** X3. In tarball mode the same source fails without any event when no
    tarball URL can be derived, fails after the download attempt when the
    download fails, and otherwise downloads exactly that URL once, before
    the checkout; the archive descriptor carries the URL and the digest of
    that download. *)
Theorem tarball_outcome :
  forall (p : package) (s : str) (u c : ParseResult) (entry : dict value),
    source p = Some s ->
    urlparse s = Ok u ->
    fragment_of u <> [] ->
    canonical_url s = Ok c ->
    selector_entry u c = Ok entry ->
    get_git_sources remote_sha256 git_repo p true =
    match get_git_tarball s (fragment_of u) with
    | Raise e => ([], Raise e)
    | Ok tarball_url =>
        match remote_sha256 tarball_url with
        | None => ([HttpGet tarball_url], Raise ClientError)
        | Some digest =>
            ([HttpGet tarball_url; GitCheckout (geturl c) (fragment_of u)],
             match snd (get_git_cargo_packages git_repo (geturl c)
                          (fragment_of u)) with
             | Raise e => Raise e
             | Ok pkgs =>
                 match dict_get (name p) pkgs with
                 | None => Raise (KeyError (name p))
                 | Some sub =>
                     Ok (archive_descriptor (name p) tarball_url digest
                           :: (if str_eq_dec sub "." then []
                               else [relocation (name p) sub])
                           ++ [checksum_marker VNone
                                 ("cargo/vendor/" ++ name p)],
                         [(geturl c, VDict entry)])
                 end
             end)
        end
    end.
Proof.
  intros p s u c entry Hs Hu Hf Hc He.
  rewrite (get_git_sources_steps p true s u c entry Hs Hu Hf Hc He).
  rewrite bind_lift.
  destruct (get_git_tarball s (fragment_of u)) as [tarball_url|e];
    [|reflexivity].
  assert (Hdl : get_remote_sha256 remote_sha256 tarball_url
                = ([HttpGet tarball_url],
                   match remote_sha256 tarball_url with
                   | Some d => Ok d
                   | None => Raise ClientError
                   end))
    by (unfold get_remote_sha256; destruct (remote_sha256 tarball_url);
        reflexivity).
  rewrite Hdl. destruct (remote_sha256 tarball_url) as [digest|]; [|reflexivity].
  rewrite bind_Ok. unfold ret at 1 2. cbn [fst snd app].
  rewrite bind_Ok, get_git_sources_tail. reflexivity.
Qed.

(** X4. Live-checkout mode never downloads: whatever the package and however
    the resolution ends, its events are none at all or the one [git]
    checkout. *)
Theorem live_checkout_never_downloads :
  forall p : package,
    fst (get_git_sources remote_sha256 git_repo p false) = []
    \/ exists git_url commit,
         fst (get_git_sources remote_sha256 git_repo p false)
         = [GitCheckout git_url commit].
Proof.
  intros p.
  destruct (source p) as [s|] eqn:Hs;
    [|left; unfold get_git_sources; rewrite Hs; reflexivity].
  destruct (urlparse s) as [u|e] eqn:Hu;
    [|left; unfold get_git_sources; rewrite Hs, Hu, bind_lift; reflexivity].
  destruct (fragment_of u) as [|f0 f] eqn:Hf.
  { left. unfold get_git_sources.
    rewrite Hs, Hu, bind_lift, bind_assert, Hf. reflexivity. }
  destruct (canonical_url s) as [c|e] eqn:Hc.
  2:{ left. unfold get_git_sources.
      rewrite Hs, Hu, bind_lift, bind_assert, Hf, Hc, bind_lift. reflexivity. }
  destruct (selector_entry u c) as [entry|e] eqn:He.
  2:{ left. unfold get_git_sources.
      rewrite Hs, Hu, bind_lift, bind_assert, Hf, Hc, bind_lift.
      cbn [length Nat.eqb negb]. cbv iota.
      rewrite selector_step, He, bind_lift. reflexivity. }
  right. exists (geturl c), (f0 :: f).
  assert (Hne : fragment_of u <> []) by (rewrite Hf; discriminate).
  rewrite (get_git_sources_steps p false s u c entry Hs Hu Hne Hc He).
  unfold ret at 1. rewrite bind_ret_l, get_git_sources_tail, Hf. reflexivity.
Qed.

(** *** [generate_sources] *)

Lemma merge_results_sources :
  forall results, fst (merge_results results) = flat_map descriptors_of results.
Proof.
  intros results. unfold merge_results.
  generalize [(VENDORED_SOURCES, VDict [("directory", VStr CARGO_CRATES)])].
  assert (H : forall (d : dict value) (l : list (dict value)),
            fst (fold_left
                   (fun acc pkg =>
                      let '(sources, cargo_vendored_sources) := acc in
                      match pkg with
                      | None => acc
                      | Some (pkg_sources, cargo_vendored_entry) =>
                          (sources ++ pkg_sources,
                           dict_update cargo_vendored_sources cargo_vendored_entry)
                      end) results (l, d))
            = l ++ flat_map descriptors_of results).
  { induction results as [|r rs IH]; intros d l; cbn [fold_left flat_map].
    - symmetry. apply app_nil_r.
    - destruct r as [[srcs entry]|]; rewrite IH; cbn [descriptors_of app].
      + symmetry. apply app_assoc.
      + reflexivity. }
  intros d. apply (H d []).
Qed.

Lemma generate_sources_eq :
  forall (lock : lockfile) (tarball : bool) (pkgs : list package),
    packages lock = Some pkgs ->
    generate_sources remote_sha256 git_repo toml_dumps lock tarball =
    (fst (gather (map (fun p => get_package_sources remote_sha256 git_repo
                                  p lock tarball) pkgs)),
     match snd (gather (map (fun p => get_package_sources remote_sha256 git_repo
                                        p lock tarball) pkgs)) with
     | Raise e => Raise e
     | Ok results =>
         Ok (flat_map descriptors_of results
               ++ [extract_crates;
                   cargo_config toml_dumps (merged_redirects results)])
     end).
Proof.
  intros lock tarball pkgs Hp. unfold generate_sources. rewrite Hp.
  destruct (gather _) as [t [results|e]]; [|reflexivity].
  rewrite bind_Ok. cbn [fst snd].
  pose proof (merge_results_sources results) as H1.
  pose proof (merge_results_redirects results) as H2.
  destruct (merge_results results) as [front redirects]. cbn [fst snd] in *.
  subst front redirects. unfold ret. cbn [fst snd].
  rewrite app_nil_r, <- app_assoc. reflexivity.
Qed.

(** X5. The manifest of a successful run is the concatenation, in the order
    of the lock file, of the descriptors of the packages that were not
    skipped, followed by the extraction step and the configuration. *)
Theorem manifest_in_lock_order :
  forall (lock : lockfile) (tarball : bool) (t : list event)
         (sources : list (dict value)),
    generate_sources remote_sha256 git_repo toml_dumps lock tarball
      = (t, Ok sources) ->
    exists pkgs results,
      packages lock = Some pkgs
      /\ Forall2 (fun p r =>
                    snd (get_package_sources remote_sha256 git_repo
                           p lock tarball) = Ok r)
           pkgs results
      /\ sources = flat_map descriptors_of results
                     ++ [extract_crates;
                         cargo_config toml_dumps (merged_redirects results)]
      /\ length sources = length (flat_map descriptors_of results) + 2.
Proof.
  intros lock tarball t sources H.
  destruct (packages lock) as [pkgs|] eqn:Hp;
    [|unfold generate_sources in H; rewrite Hp in H; discriminate].
  rewrite (generate_sources_eq lock tarball pkgs Hp) in H.
  destruct (gather _) as [t' [results|e]] eqn:Hg; cbn [fst snd] in H;
    [|discriminate].
  injection H as <- <-. exists pkgs, results.
  split; [reflexivity|]. split; [|split; [reflexivity|]].
  - apply gather_Ok_inv in Hg. clear -Hg.
    remember (map _ pkgs) as coros eqn:Hc. revert pkgs Hc.
    induction Hg as [|m r ms rs [t' Hmr] _ IH]; intros pkgs Hc;
      destruct pkgs as [|p ps]; try discriminate; [constructor|].
    cbn [map] in Hc. injection Hc as -> ->. constructor.
    + rewrite Hmr. reflexivity.
    + exact (IH ps eq_refl).
  - rewrite length_app. reflexivity.
Qed.


(** X7. A run is all or nothing: when the resolution of one package of the
    lock file raises, the run raises and returns no manifest. *)
Theorem one_failure_fails_the_run :
  forall (lock : lockfile) (tarball : bool) (pkgs : list package)
         (p : package) (e : exn),
    packages lock = Some pkgs ->
    In p pkgs ->
    snd (get_package_sources remote_sha256 git_repo p lock tarball) = Raise e ->
    exists e',
      snd (generate_sources remote_sha256 git_repo toml_dumps lock tarball)
      = Raise e'.
Proof.
  intros lock tarball pkgs p e Hp Hin He.
  rewrite (generate_sources_eq lock tarball pkgs Hp). cbn [snd].
  destruct (gather_Raise _
              (map (fun p => get_package_sources remote_sha256 git_repo
                               p lock tarball) pkgs)
              (get_package_sources remote_sha256 git_repo p lock tarball) e
              (in_map _ pkgs p Hin) He) as [e' He'].
  rewrite He'. exists e'. reflexivity.
Qed.

Lemma gather_map_Ok :
  forall (A B : Type) (f : A -> M B) (g : A -> B) (w : A -> list event)
         (l : list A),
    (forall a, In a l -> f a = (w a, Ok (g a))) ->
    gather (map f l) = (flat_map w l, Ok (map g l)).
Proof.
  intros A B f g w l. induction l as [|a l IH]; intros H; cbn [map gather flat_map].
  - reflexivity.
  - rewrite (H a (or_introl eq_refl)), bind_Ok, IH
      by (intros x Hx; apply H; right; exact Hx).
    rewrite bind_Ok. unfold ret. cbn [fst snd]. rewrite app_nil_r. reflexivity.
Qed.

(** X8. A lock file whose packages all lack a source gives one warning per
    package, in order, and the manifest of the empty lock file: the
    extraction step and a configuration with the vendor directory alone. *)
Theorem unsourced_packages_are_skipped :
  forall (lock : lockfile) (tarball : bool) (pkgs : list package),
    packages lock = Some pkgs ->
    Forall (fun p => source p = None) pkgs ->
    generate_sources remote_sha256 git_repo toml_dumps lock tarball =
    (map (fun p => Warning (name p ++ " has no source")) pkgs,
     Ok [extract_crates;
         cargo_config toml_dumps
           [("vendored-sources", VDict [("directory", VStr "cargo/vendor")])]]).
Proof.
  intros lock tarball pkgs Hp Hall.
  rewrite (generate_sources_eq lock tarball pkgs Hp).
  rewrite (gather_map_Ok _ _
             (fun p => get_package_sources remote_sha256 git_repo p lock tarball)
             (fun _ => None)
             (fun p => [Warning (name p ++ " has no source")]) pkgs).
  - cbn [fst snd].
    assert (Hw : flat_map (fun p => [Warning (name p ++ " has no source")]) pkgs
                 = map (fun p => Warning (name p ++ " has no source")) pkgs).
    { clear. induction pkgs as [|p ps IH]; cbn [flat_map map app];
        [reflexivity | f_equal; exact IH]. }
    assert (Hd : flat_map descriptors_of
                   (map (fun _ : package =>
                           @None (list (dict value) * dict value)) pkgs) = []).
    { clear. induction pkgs as [|p ps IH]; [reflexivity | exact IH]. }
    rewrite Hw, Hd, merged_redirects_skipped; [reflexivity|].
    clear. induction pkgs; constructor; [reflexivity | assumption].
  - intros p Hin. rewrite Forall_forall in Hall.
    unfold get_package_sources. rewrite (Hall p Hin). reflexivity.
Qed.

(** X9. A lock file of registry packages with known checksums resolves
    without any event: no download, no [git], no warning.  Its manifest has
    two descriptors per package, and however many packages there are, the
    configuration binds the vendor directory and one [crates-io] entry. *)
Theorem registry_only_lock :
  forall (lock : lockfile) (tarball : bool) (pkgs : list package),
    packages lock = Some pkgs ->
    pkgs <> [] ->
    Forall (fun p => exists s c,
                source p = Some s
                /\ Py.startswith "git+" s = false
                /\ known_checksum lock p s = Some c) pkgs ->
    exists descriptors,
      generate_sources remote_sha256 git_repo toml_dumps lock tarball =
      ([],
       Ok (descriptors
             ++ [extract_crates;
                 cargo_config toml_dumps
                   [("vendored-sources",
                     VDict [("directory", VStr "cargo/vendor")]);
                    ("crates-io",
                     VDict [("replace-with", VStr "vendored-sources")])]]))
      /\ length descriptors = 2 * length pkgs.
Proof.
  intros lock tarball pkgs Hp Hne Hall.
  rewrite (generate_sources_eq lock tarball pkgs Hp).
  assert (Hres : exists results,
            gather (map (fun p => get_package_sources remote_sha256 git_repo
                                    p lock tarball) pkgs) = ([], Ok results)
            /\ length results = length pkgs
            /\ Forall (fun r => exists srcs,
                         r = Some (srcs, registry_redirect)
                         /\ length srcs = 2) results).
  { clear Hp Hne. induction Hall as [|p ps (s & c & Hs & Hg & Hc) _ IH].
    - exists []. repeat split; constructor.
    - destruct IH as (rs & Hgather & Hlen & Hrs).
      exists (Some (registry_descriptors p c, registry_redirect) :: rs).
      cbn [map gather length].
      rewrite (get_package_sources_registry remote_sha256 git_repo
                 lock p s tarball c Hs Hg Hc), bind_Ok, Hgather, bind_Ok.
      unfold ret. cbn [fst snd app]. split; [reflexivity|].
      split; [f_equal; exact Hlen|].
      constructor; [|exact Hrs]. eexists. split; reflexivity. }
  destruct Hres as (results & -> & Hlen & Hrs). cbn [fst snd].
  exists (flat_map descriptors_of results). split.
  - repeat f_equal.
    destruct results as [|r rs];
      [destruct pkgs; [contradiction | discriminate]|].
    unfold merged_redirects. clear Hlen Hne.
    inversion Hrs as [|r0 rs0 (srcs & -> & _) Hrs']; subst. cbn [fold_left].
    change (dict_update
              [("vendored-sources", VDict [("directory", VStr "cargo/vendor")])]
              registry_redirect)
      with [("vendored-sources", VDict [("directory", VStr "cargo/vendor")]);
            ("crates-io", VDict [("replace-with", VStr "vendored-sources")])].
    clear Hrs. induction Hrs' as [|r rs' (srcs' & -> & _) _ IH];
      cbn [fold_left]; [reflexivity | exact IH].
  - rewrite <- Hlen. clear -Hrs.
    induction Hrs as [|r rs (srcs & -> & Hl) _ IH]; [reflexivity|].
    cbn [flat_map descriptors_of length]. rewrite length_app, Hl, IH. lia.
Qed.

End FurtherResolverProperties.

(** ** [canonical_url], continued *)














(** ** [get_git_tarball], continued *)


(** ** The checksum marker *)

Lemma quote_byte_unquote :
  forall (c : ascii) (rest : str),
    (nat_of_ascii c <? 128) = true ->
    unquote (quote_byte (nat_of_ascii c) ++ rest) = c :: unquote rest.
Proof.
  intros [[] [] [] [] [] [] [] []] rest H;
    solve [vm_compute in H; discriminate H | reflexivity].
Qed.

Lemma unquote_quote :
  forall s : str,
    forallb (fun c => nat_of_ascii c <? 128) s = true ->
    unquote (quote s) = s.
Proof.
  induction s as [|c s IH]; intros H; [reflexivity|].
  cbn [forallb] in H. apply andb_true_iff in H as [Hc Hs].
  unfold quote in *. cbn [flat_map]. unfold utf8 at 1. rewrite Hc.
  cbn [flat_map]. rewrite app_nil_r, (quote_byte_unquote c _ Hc), (IH Hs).
  reflexivity.
Qed.

Lemma quote_byte_safe :
  forall c : ascii,
    forallb (fun x => always_safe x || Ascii.eqb x "/" || Ascii.eqb x "%")
      (flat_map quote_byte (utf8 c)) = true.
Proof.
  intros [[] [] [] [] [] [] [] []]; vm_compute; reflexivity.
Qed.

Lemma quote_safe :
  forall s : str,
    forallb (fun x => always_safe x || Ascii.eqb x "/" || Ascii.eqb x "%")
      (quote s) = true.
Proof.
  induction s as [|c s IH]; [reflexivity|].
  unfold quote in *. cbn [flat_map].
  rewrite forallb_app, (quote_byte_safe c), IH. reflexivity.
Qed.

Lemma escape_char_ascii :
  forall c : ascii,
    forallb (fun x => nat_of_ascii x <? 128) (Json.escape_char c) = true.
Proof.
  intros [[] [] [] [] [] [] [] []]; vm_compute; reflexivity.
Qed.

Lemma encode_basestring_ascii_ascii :
  forall s : str,
    forallb (fun x => nat_of_ascii x <? 128) (Json.encode_basestring_ascii s)
    = true.
Proof.
  intros s. unfold Json.encode_basestring_ascii.
  assert (H : forallb (fun x => nat_of_ascii x <? 128)
                (flat_map Json.escape_char s) = true).
  { induction s as [|c s IH]; [reflexivity|].
    cbn [flat_map]. rewrite forallb_app, (escape_char_ascii c), IH.
    reflexivity. }
  rewrite !forallb_app, H. reflexivity.
Qed.

(** X13. The [url] of a checksum marker is a [data:] URL whose payload decodes
    to the JSON text it was made from, whatever the checksum is, and is
    written with letters, digits, [_.-~/] and [%] only. *)
Theorem marker_payload_decodes :
  forall (package_sum : option str) (dest : str),
    let v := match package_sum with
             | Some c => VStr c
             | None => VNone
             end in
    exists payload,
      dict_get "url" (checksum_marker v dest) = Some (VStr ("data:" ++ payload))
      /\ unquote payload
         = Json.dumps (VDict [("package", v); ("files", VDict [])])
      /\ forallb (fun x => always_safe x || Ascii.eqb x "/" || Ascii.eqb x "%")
           payload = true.
Proof.
  intros package_sum dest v.
  exists (quote (Json.dumps (VDict [("package", v); ("files", VDict [])]))).
  split; [reflexivity|]. split; [|apply quote_safe].
  apply unquote_quote. unfold v. destruct package_sum as [c|]; [|reflexivity].
  cbn [Json.dumps map Py.join].
  rewrite !forallb_app, !encode_basestring_ascii_ascii. reflexivity.
Qed.

(** ** [fetch_git_repo] *)




Lemma dropwhile_noop :
  forall (p : ascii -> bool) (s : str),
    forallb (fun c => negb (p c)) s = true -> Py.dropwhile p s = s.
Proof.
  intros p [|c s] H; [reflexivity|].
  cbn [forallb] in H. apply andb_true_iff in H as [H _].
  apply negb_true_iff in H. cbn [Py.dropwhile]. rewrite H. reflexivity.
Qed.

(** [strip] takes the line end off a line without white space. *)
Lemma strip_line :
  forall head : str,
    forallb (fun c => negb (is_space c)) head = true ->
    strip (head ++ [ascii_of_nat 10]) = head.
Proof.
  intros head H. unfold strip.
  assert (H1 : Py.dropwhile is_space (head ++ [ascii_of_nat 10])
               = match head with
                 | [] => []
                 | _ => head ++ [ascii_of_nat 10]
                 end).
  { destruct head as [|c h]; [reflexivity|].
    cbn [forallb] in H. apply andb_true_iff in H as [H _].
    apply negb_true_iff in H. cbn [app Py.dropwhile]. rewrite H. reflexivity. }
  rewrite H1. destruct head as [|c h]; [reflexivity|].
  rewrite rev_app_distr. cbn [rev app Py.dropwhile].
  change (is_space (ascii_of_nat 10)) with true. cbv iota.
  change (rev h ++ [c]) with (rev (c :: h)).
  rewrite dropwhile_noop; [apply rev_involutive|].
  apply forallb_forall. intros x Hx. apply in_rev in Hx.
  rewrite forallb_forall in H. exact (H x Hx).
Qed.

Section FetchGitRepoProperties.

Variable World : Type.
Variable isdir : World -> str -> bool.
Variable run : World -> list str -> option str -> World * option str.
Variable xdg_cache_home : option str.
Variable home_cache : str.


Local Abbreviation fetch :=
  (fetch_git_repo World isdir run xdg_cache_home home_cache).
Local Abbreviation dir := (clone_dir xdg_cache_home home_cache).


Ltac git_steps :=
  cbv beta iota zeta delta [git_bind git_ret subprocess_run];
  cbn [negb fst snd app].


(** X16. The head is compared on seven characters.  When the clone exists and
    [git rev-parse] prints a line that agrees with the commit on its first
    seven characters, nothing is fetched and nothing is checked out,
    whatever follows the seventh character of either. *)
Theorem head_is_compared_on_seven_characters :
  forall (git_url commit head : str) (w w1 : World),
    isdir w (path_join (dir git_url) [".git"]) = true ->
    run w ["git"; "rev-parse"; "HEAD"] (Some (dir git_url))
      = (w1, Some (head ++ [ascii_of_nat 10])) ->
    forallb (fun c => negb (is_space c)) head = true ->
    firstn 7 head = firstn 7 commit ->
    fetch git_url commit w
      = (w1, [git_rev_parse (dir git_url)], Ok (dir git_url)).
Proof.
  intros git_url commit head w w1 Hdir Hrun Hhead Hseven.
  unfold fetch_git_repo. git_steps. rewrite Hdir. git_steps. rewrite Hrun.
  git_steps. rewrite (strip_line head Hhead).
  destruct (str_eq_dec _ _) as [_|N]; [reflexivity|].
  exfalso. apply N. exact Hseven.
Qed.

Lemma fetch_leaves_the_clone :
  (forall w args cwd p,
      isdir w p = true -> isdir (fst (run w args cwd)) p = true) ->
  (forall w url d w' out,
      run w ["git"; "clone"; url; d] None = (w', Some out) ->
      isdir w' (path_join d [".git"]) = true) ->
  forall git_url commit w,
    snd (fetch git_url commit w) = Ok (dir git_url) ->
    isdir (fst (fst (fetch git_url commit w)))
      (path_join (dir git_url) [".git"]) = true.
Proof.
  intros Hkeep Hclone git_url commit w. unfold fetch_git_repo.
  set (d := dir git_url). set (g := path_join d [".git"]). git_steps.
  assert (Hnext : forall (w0 : World) (args : list str), isdir w0 g = true ->
            forall w1 out, run w0 args (Some d) = (w1, out) ->
                           isdir w1 g = true).
  { intros w0 args H0 w1 out E. pose proof (Hkeep w0 args (Some d) g H0) as K.
    rewrite E in K. exact K. }
  destruct (isdir w g) eqn:Hg; git_steps.
  - destruct (run w ["git"; "rev-parse"; "HEAD"] (Some d)) as [w1 [out|]] eqn:E1;
      git_steps; [|discriminate].
    pose proof (Hnext _ _ Hg _ _ E1) as H1.
    destruct (str_eq_dec _ _); git_steps; [intros _; exact H1|].
    destruct (run w1 ["git"; "fetch"; "origin"; commit] (Some d))
      as [w2 [out2|]] eqn:E2; git_steps; [|discriminate].
    pose proof (Hnext _ _ H1 _ _ E2) as H2.
    destruct (run w2 ["git"; "checkout"; commit] (Some d)) as [w3 [out3|]] eqn:E3;
      git_steps; [|discriminate].
    intros _. exact (Hnext _ _ H2 _ _ E3).
  - destruct (run w ["git"; "clone"; git_url; d] None) as [w0 [out0|]] eqn:E0;
      git_steps; [|discriminate].
    pose proof (Hclone _ _ _ _ _ E0) as H0. fold g in H0.
    destruct (run w0 ["git"; "rev-parse"; "HEAD"] (Some d)) as [w1 [out|]] eqn:E1;
      git_steps; [|discriminate].
    pose proof (Hnext _ _ H0 _ _ E1) as H1.
    destruct (str_eq_dec _ _); git_steps; [intros _; exact H1|].
    destruct (run w1 ["git"; "fetch"; "origin"; commit] (Some d))
      as [w2 [out2|]] eqn:E2; git_steps; [|discriminate].
    pose proof (Hnext _ _ H1 _ _ E2) as H2.
    destruct (run w2 ["git"; "checkout"; commit] (Some d)) as [w3 [out3|]] eqn:E3;
      git_steps; [|discriminate].
    intros _. exact (Hnext _ _ H2 _ _ E3).
Qed.

Lemma no_clone_in_an_existing_clone :
  forall git_url commit w,
    isdir w (path_join (dir git_url) [".git"]) = true ->
    existsb is_clone (snd (fst (fetch git_url commit w))) = false.
Proof.
  intros git_url commit w H. unfold fetch_git_repo. git_steps.
  rewrite H. git_steps.
  destruct (run w ["git"; "rev-parse"; "HEAD"] _) as [w1 [out|]];
    git_steps; [|reflexivity].
  destruct (str_eq_dec _ _); git_steps; [reflexivity|].
  destruct (run w1 ["git"; "fetch"; "origin"; commit] _) as [w2 [out2|]];
    git_steps; [|reflexivity].
  destruct (run w2 ["git"; "checkout"; commit] _) as [w3 [out3|]];
    git_steps; reflexivity.
Qed.

(** X17. In a world where [git clone] creates the [.git] directory of its
    target and no command removes a directory, a call that follows a
    successful one never clones: not for another commit, and not for
    another URL that [repo_dir] maps to the same name, whose repository is
    then looked for in the clone of the first. *)
Theorem a_later_call_reuses_the_clone :
  (forall w args cwd p,
      isdir w p = true -> isdir (fst (run w args cwd)) p = true) ->
  (forall w url d w' out,
      run w ["git"; "clone"; url; d] None = (w', Some out) ->
      isdir w' (path_join d [".git"]) = true) ->
  forall (git_url commit git_url' commit' : str) (w : World),
    snd (fetch git_url commit w) = Ok (dir git_url) ->
    repo_dir git_url' = repo_dir git_url ->
    let w' := fst (fst (fetch git_url commit w)) in
    existsb is_clone (snd (fst (fetch git_url' commit' w'))) = false
    /\ dir git_url' = dir git_url.
Proof.
  intros Hkeep Hclone git_url commit git_url' commit' w Hok Hname w'.
  assert (Hd : dir git_url' = dir git_url)
    by (unfold clone_dir; rewrite Hname; reflexivity).
  split; [|exact Hd].
  apply no_clone_in_an_existing_clone. rewrite Hd.
  exact (fetch_leaves_the_clone Hkeep Hclone git_url commit w Hok).
Qed.

End FetchGitRepoProperties.

(** * The further properties at work *)

(** X2 at work. The crate under [crates/foo], resolved from a live checkout. *)
Lemma live_checkout_outcome_witness :
  get_git_sources example_offline example_repo example_git_crate false
  = ([GitCheckout "https://github.com/o/r" "deadbee"],
     Ok ([git_descriptor "foo" "https://github.com/o/r" "deadbee";
          relocation "foo" "crates/foo";
          checksum_marker VNone "cargo/vendor/foo"],
         [("https://github.com/o/r",
           VDict [("git", VStr "https://github.com/o/r");
                  ("replace-with", VStr "vendored-sources");
                  ("rev", VStr "abc")])])).
Proof.
  exact (live_checkout_outcome example_offline example_repo example_git_crate
           "git+https://github.com/o/r?rev=abc#deadbee"
           (mkParseResult "git+https" "github.com" "/o/r"
              (Some []) (Some "rev=abc") (Some "deadbee"))
           (mkParseResult "https" "github.com" "/o/r" None None None)
           [("git", VStr "https://github.com/o/r");
            ("replace-with", VStr "vendored-sources");
            ("rev", VStr "abc")]
           eq_refl eq_refl ltac:(discriminate) eq_refl eq_refl).
Defined.

(** X3 at work. The same crate, resolved from a tarball of the mirror. *)
Lemma tarball_outcome_witness :
  get_git_sources example_mirror example_repo example_git_crate true
  = ([HttpGet "https://codeload.github.com/o/r/tar.gz/deadbee";
      GitCheckout "https://github.com/o/r" "deadbee"],
     Ok ([archive_descriptor "foo"
            "https://codeload.github.com/o/r/tar.gz/deadbee" "e3b0c442";
          relocation "foo" "crates/foo";
          checksum_marker VNone "cargo/vendor/foo"],
         [("https://github.com/o/r",
           VDict [("git", VStr "https://github.com/o/r");
                  ("replace-with", VStr "vendored-sources");
                  ("rev", VStr "abc")])])).
Proof.
  exact (tarball_outcome example_mirror example_repo example_git_crate
           "git+https://github.com/o/r?rev=abc#deadbee"
           (mkParseResult "git+https" "github.com" "/o/r"
              (Some []) (Some "rev=abc") (Some "deadbee"))
           (mkParseResult "https" "github.com" "/o/r" None None None)
           [("git", VStr "https://github.com/o/r");
            ("replace-with", VStr "vendored-sources");
            ("rev", VStr "abc")]
           eq_refl eq_refl ltac:(discriminate) eq_refl eq_refl).
Defined.

(** X5 at work. The manifest of the small lock file, in the order of its packages. *)
Lemma manifest_in_lock_order_witness :
  exists pkgs results,
    packages example_lock = Some pkgs
    /\ Forall2 (fun p r =>
                  snd (get_package_sources example_offline example_repo
                         p example_lock false) = Ok r)
         pkgs results
    /\ manifest_of (generate_sources example_offline example_repo example_toml
                      example_lock false)
       = flat_map descriptors_of results
           ++ [extract_crates;
               cargo_config example_toml (merged_redirects results)]
    /\ length (manifest_of (generate_sources example_offline example_repo
                              example_toml example_lock false))
       = length (flat_map descriptors_of results) + 2.
Proof.
  apply (manifest_in_lock_order example_offline example_repo example_toml
           example_lock false
           (fst (generate_sources example_offline example_repo example_toml
                   example_lock false))).
  vm_compute. reflexivity.
Defined.

(** X7 at work. A lock file whose second package names no commit. *)
Lemma one_failure_fails_the_run_witness :
  exists e',
    snd (generate_sources example_offline example_repo example_toml
           (mkLockfile None
              (Some [example_crate;
                     mkPackage "foo" "0.1.0"
                       (Some "git+https://github.com/o/r?rev=abc") None]))
           false)
    = Raise e'.
Proof.
  apply (one_failure_fails_the_run example_offline example_repo example_toml
           (mkLockfile None
              (Some [example_crate;
                     mkPackage "foo" "0.1.0"
                       (Some "git+https://github.com/o/r?rev=abc") None]))
           false
           [example_crate;
            mkPackage "foo" "0.1.0"
              (Some "git+https://github.com/o/r?rev=abc") None]
           (mkPackage "foo" "0.1.0"
              (Some "git+https://github.com/o/r?rev=abc") None)
           (AssertionError
              "The commit needs to be indicated in the fragement part")).
  - reflexivity.
  - right. left. reflexivity.
  - vm_compute. reflexivity.
Defined.

(** X8 at work. A lock file of two local packages. *)
Lemma unsourced_packages_are_skipped_witness :
  generate_sources example_offline example_repo example_toml
    (mkLockfile None
       (Some [mkPackage "app" "1.0.0" None None;
              mkPackage "helper" "0.1.0" None None]))
    true
  = ([Warning "app has no source"; Warning "helper has no source"],
     Ok [extract_crates;
         cargo_config example_toml
           [("vendored-sources", VDict [("directory", VStr "cargo/vendor")])]]).
Proof.
  apply (unsourced_packages_are_skipped example_offline example_repo
           example_toml
           (mkLockfile None
              (Some [mkPackage "app" "1.0.0" None None;
                     mkPackage "helper" "0.1.0" None None]))
           true
           [mkPackage "app" "1.0.0" None None;
            mkPackage "helper" "0.1.0" None None]).
  - reflexivity.
  - constructor; [reflexivity|]. constructor; [reflexivity|]. constructor.
Defined.

(** X9 at work. A lock file with the registry crate twice. *)
Lemma registry_only_lock_witness :
  exists descriptors,
    generate_sources example_offline example_repo example_toml
      (mkLockfile None (Some [example_crate; example_crate])) false
    = ([],
       Ok (descriptors
             ++ [extract_crates;
                 cargo_config example_toml
                   [("vendored-sources",
                     VDict [("directory", VStr "cargo/vendor")]);
                    ("crates-io",
                     VDict [("replace-with", VStr "vendored-sources")])]]))
    /\ length descriptors = 4.
Proof.
  apply (registry_only_lock example_offline example_repo example_toml
           (mkLockfile None (Some [example_crate; example_crate])) false
           [example_crate; example_crate]).
  - reflexivity.
  - discriminate.
  - assert (H : exists s c,
               source example_crate = Some s
               /\ Py.startswith "git+" s = false
               /\ known_checksum
                    (mkLockfile None (Some [example_crate; example_crate]))
                    example_crate s = Some c).
    { exists "registry+https://github.com/rust-lang/crates.io-index", "abc123".
      split; [reflexivity|]. split; reflexivity. }
    constructor; [exact H|]. constructor; [exact H|]. constructor.
Defined.


Lemma toy_keeps :
  forall (w : list str) (args : list str) (cwd : option str) (p : str),
    toy_isdir w p = true -> toy_isdir (fst (toy_run w args cwd)) p = true.
Proof.
  intros w args cwd p H. unfold toy_run.
  destruct (is_clone _); cbn [fst toy_isdir existsb]; [|exact H].
  unfold toy_isdir in H. rewrite H. apply orb_true_r.
Qed.

Lemma toy_clones :
  forall (w : list str) (url d : str) (w' : list str) (out : str),
    toy_run w ["git"; "clone"; url; d] None = (w', Some out) ->
    toy_isdir w' (path_join d [".git"]) = true.
Proof.
  intros w url d w' out H. unfold toy_run in H.
  change (is_clone (mkCommand ["git"; "clone"; url; d] None)) with true in H.
  cbv iota in H. injection H as <- _.
  set (g := path_join d [".git"]). change (toy_isdir (g :: w) g = true).
  unfold toy_isdir. cbn [existsb].
  destruct (str_eq_dec g g); [reflexivity | contradiction].
Qed.

(** X16 at work. A clone whose head is [0123456789abcdef], asked for another commit
    that starts with [0123456]. *)
Lemma head_is_compared_on_seven_characters_witness :
  fetch_git_repo (list str) toy_isdir toy_run (Some "/c") "/home/u/.cache"
    "https://h/o/r" "0123456fff" ["/c/flatpak-cargo/https_h_o_r/.git"]
  = (["/c/flatpak-cargo/https_h_o_r/.git"],
     [git_rev_parse "/c/flatpak-cargo/https_h_o_r"],
     Ok "/c/flatpak-cargo/https_h_o_r").
Proof.
  exact (head_is_compared_on_seven_characters (list str) toy_isdir toy_run
           (Some "/c") "/home/u/.cache"
           "https://h/o/r" "0123456fff" "0123456789abcdef"
           ["/c/flatpak-cargo/https_h_o_r/.git"]
           ["/c/flatpak-cargo/https_h_o_r/.git"]
           eq_refl eq_refl eq_refl eq_refl).
Defined.

(** X17 at work. After a first call in an empty cache, a call for a URL that is given
    the same name runs no [git clone]. *)
Lemma a_later_call_reuses_the_clone_witness :
  existsb is_clone
    (snd (fst (fetch_git_repo (list str) toy_isdir toy_run (Some "/c")
                 "/home/u/.cache" "https_h/o_r" "ffffffff"
                 (fst (fst (fetch_git_repo (list str) toy_isdir toy_run
                              (Some "/c") "/home/u/.cache"
                              "https://h/o/r" "0123456" []))))))
  = false
  /\ clone_dir (Some "/c") "/home/u/.cache" "https_h/o_r"
     = clone_dir (Some "/c") "/home/u/.cache" "https://h/o/r".
Proof.
  exact (a_later_call_reuses_the_clone (list str) toy_isdir toy_run
           (Some "/c") "/home/u/.cache" toy_keeps toy_clones
           "https://h/o/r" "0123456" "https_h/o_r" "ffffffff" []
           eq_refl eq_refl).
Defined.
